(** * Crypto Coin Scanner: the data pipeline of [app.py]

    A shallow embedding of the three helper functions of [app.py]
    ([get_top_gainers], [check_binance_data], [get_brave_search_news]) and
    the properties of the gainer ranking, the exchange check and the news
    normalisation.

    Conventions of the embedding.
    - JSON numbers and Python floats are exact rationals ([Q]): every finite
      double is a rational, [<] and [>] on finite doubles agree with
      the order of [Q], and the [f] format rounds the exact value of the
      double.  NaN, the infinities and the sign of zero are outside the model.
    - A [requests.get] call is a query to an oracle that answers with a
      [response]: the parsed JSON body, or the exception the [try] block sees.
    - The Streamlit calls [st.warning], [st.info], [st.error] append a
      [ui_msg] to a log that is threaded through the function; the two
      functions that ask for one URL also log the request, so that "no
      request was made" is a statement about the log.
    - A JSON object is a record of the keys the code reads; a key read with
      [.get] is an [option]. A key that is present holds a value of the
      shape the code expects.
    - A Python [dict] built by a comprehension is an association list in
      insertion order (the order [dict.values()] iterates in). *)

From Stdlib Require Import QArith Qround Qabs Sorted Permutation.
From Stdlib Require Import Ascii String DecimalString Lqa.
From stdpp Require Import gmap strings list.

Local Open Scope Z_scope.

(** ** Responses of the remote services *)

(** What the [try] block around [requests.get(...)], [raise_for_status()]
    and [response.json()] observes. [HTTPError] is tested before
    [RequestException], which is tested before [Exception]. *)
Inductive response (A : Type) : Type :=
| Ok (body : A)                  (* 2xx, body parsed by [response.json()] *)
| HTTPError (status_code : Z) (text : string)
                                 (* [requests.exceptions.HTTPError], with
                                    [e.response.status_code] and
                                    [e.response.text] *)
| RequestException               (* connection error, timeout, ... *)
| OtherException.                (* anything else, e.g. a JSON decode error *)
Arguments Ok {A} body.
Arguments HTTPError {A} status_code text.
Arguments RequestException {A}.
Arguments OtherException {A}.

(** ** The message log of the user interface *)

Inductive ui_msg : Type :=
| WarnMissingKey                       (* "Por favor, insira a API Key ..." *)
| ErrUnauthorized                      (* "API Key inválida ou não autorizada. ..." *)
| ErrRateLimit (page_num : nat)        (* "Limite de requisições da API atingido ..." *)
| ErrHTTP (status_code : Z) (page_num : nat) (* "Erro HTTP {code} ao buscar dados da página {n}." *)
| ErrConnection (page_num : nat)       (* "Erro de conexão ao buscar dados da página {n}: ..." *)
| ErrUnexpected (page_num : nat)       (* "Ocorreu um erro inesperado ao processar dados ..." *)
| WarnNoCoins                          (* "Nenhuma moeda foi encontrada após as tentativas ..." *)
| InfoNoneQualified.                   (* "Nenhuma moeda atendeu aos critérios de volume ..." *)

(** A computation that appends events of type [E] to a log and returns a
    value. *)
Definition Writer (E A : Type) : Type := (list E * A)%type.

Definition ui_ret {E A} (a : A) : Writer E A := ([], a).
Definition ui_bind {E A B} (m : Writer E A) (k : A -> Writer E B) : Writer E B :=
  let '(w1, a) := m in let '(w2, b) := k a in (w1 ++ w2, b).
Definition st_say {E} (e : E) : Writer E unit := ([e], tt).
Definition ui_log {E A} (m : Writer E A) : list E := fst m.
Definition ui_val {E A} (m : Writer E A) : A := snd m.

(** [get_top_gainers] only talks to the page. *)
Definition UI (A : Type) : Type := Writer ui_msg A.

Notation "'let!' x ':=' m 'in' k" := (ui_bind m (fun x => k))
  (at level 10, x name, m at level 200, k at level 200).
Notation "'say!' msg 'in' k" := (ui_bind (st_say msg) (fun _ => k))
  (at level 10, msg at level 9, k at level 200).

(** ** Coin snapshots *)

(** One element of the JSON array of [/coins/markets]. [coin['id']] is
    subscripted (required); the two numeric fields are read with [.get] and
    tested against [None], so [None] stands for a missing key and for a JSON
    [null] alike. *)
Record coin : Type := Coin {
  coin_id : string;
  symbol : string;
  price_change_percentage_24h_in_currency : option Q;
  total_volume : option Q;
}.

(** ** Comparisons on rationals *)

Definition Qlt_bool (x y : Q) : bool := negb (Qle_bool y x).

(** ** [get_top_gainers]: deduplication, filters, sort, truncation *)

(** [d[k] = v] on an insertion-ordered dict: an existing key keeps its
    position and takes the new value, a new key goes to the end. *)
Fixpoint dict_set (k : string) (v : coin) (d : list (string * coin))
  : list (string * coin) :=
  match d with
  | [] => [(k, v)]
  | (k', v') :: d' =>
      if String.eqb k k' then (k', v) :: d' else (k', v') :: dict_set k v d'
  end.

(** [{coin['id']: coin for coin in all_coins_data}] *)
Definition unique_coins_map (all_coins_data : list coin) : list (string * coin) :=
  fold_left (fun d c => dict_set (coin_id c) c d) all_coins_data [].

(** [list(unique_coins_map.values())] *)
Definition unique_coins_data (all_coins_data : list coin) : list coin :=
  map snd (unique_coins_map all_coins_data).

(** [coin.get('price_change_percentage_24h_in_currency') is not None] *)
Definition has_change (c : coin) : bool :=
  match price_change_percentage_24h_in_currency c with
  | Some _ => true
  | None => false
  end.

(** [coin.get('total_volume') is not None and coin['total_volume'] > 1000000] *)
Definition has_volume (c : coin) : bool :=
  match total_volume c with
  | Some v => Qlt_bool (1000000 # 1) v
  | None => false
  end.

Definition valid_coins (all_coins_data : list coin) : list coin :=
  List.filter has_change (unique_coins_data all_coins_data).

Definition filtered_by_volume (all_coins_data : list coin) : list coin :=
  List.filter has_volume (valid_coins all_coins_data).

(** The sort key [x['price_change_percentage_24h_in_currency']]. The sort
    only sees coins that passed [has_change]; the [None] branch is never
    compared. *)
Definition change_key (c : coin) : Q :=
  match price_change_percentage_24h_in_currency c with
  | Some q => q
  | None => 0%Q
  end.

(** [sorted(..., key=..., reverse=True)] is a stable sort into descending
    order: of two coins with equal keys the one that came first stays
    first. [insert_desc x l] puts [x], which came before every element of
    [l], in front of the first element whose key is not greater. *)
Fixpoint insert_desc (x : coin) (l : list coin) : list coin :=
  match l with
  | [] => [x]
  | y :: l' =>
      if Qle_bool (change_key y) (change_key x) then x :: y :: l'
      else y :: insert_desc x l'
  end.

Definition sorted_desc (l : list coin) : list coin :=
  fold_right insert_desc [] l.

Definition sorted_coins (all_coins_data : list coin) : list coin :=
  sorted_desc (filtered_by_volume all_coins_data).

(** [sorted_coins[:10]] *)
Definition top_coins (all_coins_data : list coin) : list coin :=
  firstn 10 (sorted_coins all_coins_data).

(** Lines 126-157: everything after the page loop. *)
Definition rank_collected (all_coins_data : list coin) : UI (option (list coin)) :=
  match all_coins_data with
  | [] => say! WarnNoCoins in ui_ret None
  | _ :: _ =>
      match sorted_coins all_coins_data with
      | [] => say! InfoNoneQualified in ui_ret None
      | _ :: _ => ui_ret (Some (top_coins all_coins_data))
      end
  end.

(** ** [get_top_gainers]: the page loop *)

(** The loop [for page_num in pages] with the list collected so far.
    [None] is a [return None] from inside the loop; [Some l] is the list
    [all_coins_data] when the loop is left, by exhaustion or by [break]. *)
Fixpoint fetch_pages (api : nat -> response (list coin)) (pages : list nat)
    (all_coins_data : list coin) : UI (option (list coin)) :=
  match pages with
  | [] => ui_ret (Some all_coins_data)
  | page_num :: rest =>
      match api page_num with
      | Ok page_data =>
          fetch_pages api rest
            (match page_data with
             | [] => all_coins_data
             | _ :: _ => all_coins_data ++ page_data
             end)
      | HTTPError status_code _ =>
          if status_code =? 401 then
            say! ErrUnauthorized in ui_ret None
          else if status_code =? 429 then
            say! (ErrRateLimit page_num) in
            match all_coins_data with
            | [] => ui_ret None
            | _ :: _ => ui_ret (Some all_coins_data)
            end
          else
            say! (ErrHTTP status_code page_num) in
            match all_coins_data with
            | [] => ui_ret None
            | _ :: _ => ui_ret (Some all_coins_data)
            end
      | RequestException =>
          say! (ErrConnection page_num) in
          match all_coins_data with
          | [] => ui_ret None
          | _ :: _ => ui_ret (Some all_coins_data)
          end
      | OtherException =>
          say! (ErrUnexpected page_num) in
          match all_coins_data with
          | [] => ui_ret None
          | _ :: _ => ui_ret (Some all_coins_data)
          end
      end
  end.

(** [get_top_gainers(key)] against a market API [api]. *)
Definition get_top_gainers (key : string) (api : nat -> response (list coin))
  : UI (option (list coin)) :=
  if String.eqb key "" then
    say! WarnMissingKey in ui_ret None
  else
    let! r := fetch_pages api [1%nat; 2%nat] [] in
    match r with
    | None => ui_ret None
    | Some all_coins_data => rank_collected all_coins_data
    end.

(** *** Specification vocabulary of the ranking *)

(** [a] may stand before [b] in a list sorted by descending change. *)
Definition change_ge (a b : coin) : Prop := (change_key b <= change_key a)%Q.

(** The two filters, as a property of a coin. *)
Definition qualifies (c : coin) : Prop :=
  exists q v,
    price_change_percentage_24h_in_currency c = Some q /\
    total_volume c = Some v /\ (1000000 # 1 < v)%Q.

(** *** Scenario data *)

Definition coin_a : coin := Coin "a" "A" (Some 5.0%Q) (Some 2000000%Q).
Definition coin_b : coin := Coin "b" "B" (Some 10.0%Q) (Some 500000%Q).
Definition coin_x3 : coin := Coin "x" "X" (Some 3.0%Q) (Some 2000000%Q).
Definition coin_x7 : coin := Coin "x" "X" (Some 7.0%Q) (Some 2000000%Q).


(** *** Specification vocabulary of the deduplication *)

(** [d.get(k)] on the association list. *)
Fixpoint dict_get (k : string) (d : list (string * coin)) : option coin :=
  match d with
  | [] => None
  | (k', v) :: d' => if String.eqb k k' then Some v else dict_get k d'
  end.

(** The record with identifier [i] that occurs last in [l]. *)
Definition last_with_id (i : string) (l : list coin) : option coin :=
  find (fun c => String.eqb (coin_id c) i) (rev l).

(** [c] occurs in [l] and no later record of [l] has its identifier. *)
Definition is_last_occurrence (c : coin) (l : list coin) : Prop :=
  exists l1 l2, l = l1 ++ c :: l2 /\ Forall (fun d => coin_id d <> coin_id c) l2.

(** Every key of the dict is the identifier of its value. *)
Definition keyed (d : list (string * coin)) : Prop :=
  Forall (fun kv => coin_id (snd kv) = fst kv) d.

(** *** Specification vocabulary of the truncation *)

(** The number of coins of [l], other than the one with the identifier of
    [c], whose change is at least that of [c]. *)
Definition count_rivals (c : coin) (l : list coin) : nat :=
  length (List.filter
            (fun d => negb (String.eqb (coin_id d) (coin_id c)) &&
                      Qle_bool (change_key c) (change_key d)) l).

(** The number of coins of [l] whose change is strictly above that of [c]. *)
Definition count_higher (c : coin) (l : list coin) : nat :=
  length (List.filter (fun d => Qlt_bool (change_key c) (change_key d)) l).

(** Eleven coins that fell by one percent, all with volume 2,000,000. *)
Definition fallen (i : string) : coin :=
  Coin i i (Some (-1.0)%Q) (Some 2000000%Q).

Definition eleven_fallen : list coin :=
  map fallen ["f01"; "f02"; "f03"; "f04"; "f05"; "f06"; "f07"; "f08"; "f09";
              "f10"; "f11"].

(** *** Specification vocabulary of the page loop *)

(** A failed page request other than HTTP 401: HTTP 429, any other HTTP
    status, a connection error or timeout, an unparsable body. *)
Definition is_transient {A} (r : response A) : Prop :=
  match r with
  | Ok _ => False
  | HTTPError status_code _ => status_code <> 401
  | RequestException | OtherException => True
  end.

(** The pages [pages] are answered with the bodies [bodies], in order. *)
Definition answered (api : nat -> response (list coin)) (pages : list nat)
    (bodies : list (list coin)) : Prop :=
  Forall2 (fun page_num page_data => api page_num = Ok page_data) pages bodies.

(** A market API for the scenarios: page 1 has [coin_a], page 2 fails with
    the given status. *)
Definition api_page2_fails (status_code : Z) (page_num : nat)
  : response (list coin) :=
  match page_num with
  | 1%nat => Ok [coin_a]
  | _ => HTTPError status_code ""
  end.

(** ** [check_binance_data] *)

(** [coin_symbol.upper()]. Ticker symbols are ASCII; a byte outside
    [a-z] is left as it is. *)
Definition upper_ascii (c : ascii) : ascii :=
  let n := nat_of_ascii c in
  if ((97 <=? n) && (n <=? 122))%nat then ascii_of_nat (n - 32) else c.

Fixpoint upper (s : string) : string :=
  match s with
  | EmptyString => EmptyString
  | String c s' => String (upper_ascii c) (upper s')
  end.

(** The argument [tradable_usdt_pairs] as the two tests of line 191 see
    it: [None], a value that is not a [set], or a set of symbols. *)
Inductive pairs_arg : Type :=
| PairsNone
| PairsNotASet
| PairsSet (pairs : gset string).

(** A field of the ticker body as [float(data.get(k, 0))] sees it: the key
    is missing, or [float] raises on its value, or [float] yields a number. *)
Inductive field : Type :=
| Missing
| Unparsable
| Number (q : Q).

Record ticker_body : Type := TickerBody {
  lastPrice : field;
  quoteVolume : field;
}.

(** [float(data.get(k, 0))]; [None] when [float] raises. *)
Definition float_of_field (f : field) : option Q :=
  match f with
  | Missing => Some 0%Q
  | Unparsable => None
  | Number q => Some q
  end.

(** What [check_binance_data] does besides returning: the ticker request
    and the warnings of the sidebar. *)
Inductive binance_event : Type :=
| TickerRequest (binance_symbol_usdt : string)
| SidebarHTTP (status_code : Z) (binance_symbol_usdt : string)
| SidebarConnection (binance_symbol_usdt : string)
| SidebarData (binance_symbol_usdt : string).

Record binance_result : Type := BinanceResult {
  status_binance : string;
  price_binance : string;
  volume_binance : string;
}.

(** *** The [,.Nf] format *)

Definition is_digit (c : ascii) : Prop :=
  (48 <= nat_of_ascii c <= 57)%nat.

Definition digit_char (n : Z) : ascii := ascii_of_nat (48 + Z.to_nat (n mod 10)).

(** The last [d] decimal digits of [n], most significant first. *)
Fixpoint digits_fixed (d : nat) (n : Z) : list ascii :=
  match d with
  | O => []
  | S d' => digits_fixed d' (n / 10) ++ [digit_char n]
  end.

(** The decimal digits of a natural number, ["0"] for zero. *)
Definition int_digits (n : Z) : list ascii :=
  list_ascii_of_string (NilZero.string_of_uint (N.to_uint (Z.to_N n))).

(** A comma after every third digit, on the digits in reverse order. *)
Fixpoint commas_rev (l : list ascii) : list ascii :=
  match l with
  | a :: b :: c :: ((_ :: _) as rest) =>
      a :: b :: c :: ","%char :: commas_rev rest
  | _ => l
  end.

(** The [,] option of the format. *)
Definition group_thousands (digits : list ascii) : list ascii :=
  rev (commas_rev (rev digits)).

(** Rounding to the nearest integer, ties to the even one, as the [f]
    format rounds the exact value of a float. *)
Definition round_half_even (x : Q) : Z :=
  let fl := Qfloor x in
  match (x - inject_Z fl ?= 1 # 2)%Q with
  | Lt => fl
  | Gt => fl + 1
  | Eq => if Z.even fl then fl else fl + 1
  end.

(** [f"{x:,.{d}f}"], as a list of characters. *)
Definition format_f_chars (d : nat) (x : Q) : list ascii :=
  let n := round_half_even (Qabs x * inject_Z (10 ^ Z.of_nat d))%Q in
  (if Qlt_bool x 0 then ["-"%char] else []) ++
  group_thousands (int_digits (n / 10 ^ Z.of_nat d)) ++
  match d with
  | O => []
  | S _ => "."%char :: digits_fixed d (n mod 10 ^ Z.of_nat d)
  end.

Definition format_f (d : nat) (x : Q) : string :=
  string_of_list_ascii (format_f_chars d x).

(** [f"${price:,.8f}" if price < 0.01 else f"${price:,.2f}"]. The float
    [0.01] lies above the rational 1/100 with no float between them, so for
    a float [price] the test is the one against 1/100. *)
Definition format_price (price : Q) : string :=
  if Qlt_bool price (1 # 100) then "$" +:+ format_f 8 price
  else "$" +:+ format_f 2 price.

(** [f"${volume_usdt:,.2f}"] *)
Definition format_volume (volume_usdt : Q) : string :=
  "$" +:+ format_f 2 volume_usdt.

(** [str(e.response.status_code)] inside an f-string. *)
Definition str_of_Z (n : Z) : string := NilZero.string_of_int (Z.to_int n).

(** ["Invalid symbol" in e.response.text] *)
Definition contains (needle hay : string) : bool :=
  match String.index 0 needle hay with
  | Some _ => true
  | None => false
  end.

(** *** The function *)

Definition STATUS_CHECK_ERROR : string := "⚠️ Erro Verificação".
Definition STATUS_CHECK_UNAVAILABLE : string := "❌ Verif. Indisponível".
Definition STATUS_EXCHANGE_UNAVAILABLE : string := "⚠️ Binance Indisponível".
Definition STATUS_NOT_LISTED : string := "❌ Não na Binance (USDT)".
Definition STATUS_LISTED : string := "✅ Na Binance".
Definition STATUS_CONNECTION : string := "⚠️ Erro Conexão Binance".
Definition STATUS_DATA : string := "⚠️ Erro Dados Binance".
Definition NOT_AVAILABLE : string := "N/A".

(** The status of an [HTTPError] of the ticker request (lines 227-231). *)
Definition http_status_message (coin_symbol : string) (status_code : Z)
    (text : string) : string :=
  if (status_code =? 400) && negb (String.eqb text "") &&
     contains "Invalid symbol" text
  then "❌ " +:+ upper coin_symbol +:+ " Inválido (Ticker)"
  else if status_code =? 404
  then "❌ " +:+ upper coin_symbol +:+ " Não Listado (Ticker)"
  else "⚠️ Erro " +:+ str_of_Z status_code +:+ " Binance".

(** [check_binance_data(coin_symbol, tradable_usdt_pairs)] against the
    ticker endpoint [ticker], which is asked by symbol. *)
Definition check_binance_data (coin_symbol : string)
    (tradable_usdt_pairs : pairs_arg)
    (ticker : string -> response ticker_body)
  : Writer binance_event binance_result :=
  let binance_symbol_usdt := upper coin_symbol +:+ "USDT" in
  let default_error_result :=
    BinanceResult STATUS_CHECK_ERROR NOT_AVAILABLE NOT_AVAILABLE in
  match tradable_usdt_pairs with
  | PairsNone | PairsNotASet =>
      ui_ret (BinanceResult STATUS_CHECK_UNAVAILABLE NOT_AVAILABLE NOT_AVAILABLE)
  | PairsSet pairs =>
      if decide (pairs = ∅) then
        ui_ret (BinanceResult STATUS_EXCHANGE_UNAVAILABLE NOT_AVAILABLE NOT_AVAILABLE)
      else if decide (binance_symbol_usdt ∉ pairs) then
        ui_ret (BinanceResult STATUS_NOT_LISTED NOT_AVAILABLE NOT_AVAILABLE)
      else
        say! (TickerRequest binance_symbol_usdt) in
        match ticker binance_symbol_usdt with
        | Ok data =>
            match float_of_field (lastPrice data),
                  float_of_field (quoteVolume data) with
            | Some price, Some volume_usdt =>
                ui_ret (BinanceResult STATUS_LISTED (format_price price)
                                      (format_volume volume_usdt))
            | _, _ =>
                say! (SidebarData binance_symbol_usdt) in
                ui_ret (BinanceResult STATUS_DATA
                          (price_binance default_error_result)
                          (volume_binance default_error_result))
            end
        | HTTPError status_code text =>
            say! (SidebarHTTP status_code binance_symbol_usdt) in
            ui_ret (BinanceResult
                      (http_status_message coin_symbol status_code text)
                      (price_binance default_error_result)
                      (volume_binance default_error_result))
        | RequestException =>
            say! (SidebarConnection binance_symbol_usdt) in
            ui_ret (BinanceResult STATUS_CONNECTION
                      (price_binance default_error_result)
                      (volume_binance default_error_result))
        | OtherException =>
            say! (SidebarData binance_symbol_usdt) in
            ui_ret (BinanceResult STATUS_DATA
                      (price_binance default_error_result)
                      (volume_binance default_error_result))
        end
  end.

(** *** Specification vocabulary of the rendering *)

(** Digits in groups separated by commas: a first group of one to three
    digits, then groups of exactly three. *)
Inductive thousands : list ascii -> Prop :=
| thousands_first (g : list ascii) :
    (1 <= length g <= 3)%nat -> Forall is_digit g -> thousands g
| thousands_more (l : list ascii) (a b c : ascii) :
    thousands l -> is_digit a -> is_digit b -> is_digit c ->
    thousands (l ++ [","%char; a; b; c]).

(** [s] is a dollar sign, an optional minus sign, an integer part with
    thousands separators, a point and exactly [d] decimal digits. *)
Definition rendered_with (d : nat) (s : string) : Prop :=
  exists sign g fp,
    s = string_of_list_ascii ("$"%char :: sign ++ g ++ "."%char :: fp) /\
    (sign = [] \/ sign = ["-"%char]) /\
    thousands g /\
    length fp = d /\ Forall is_digit fp.

(** The pair set of scenario 3. *)
Definition pairs_abc : gset string := {[ "ABCUSDT"%string ]}.

(** A ticker endpoint that answers every symbol with the same body. *)
Definition ticker_const (data : ticker_body) (binance_symbol_usdt : string)
  : response ticker_body := Ok data.

(** ** [get_brave_search_news] *)

(** The JSON of the web-search API, as far as the function reads it. A
    key read with [.get] is an [option]: [None] when the key is missing. *)
Record meta_url_obj : Type := MetaUrl {
  hostname : option string;
}.

Record search_item : Type := SearchItem {
  title : option string;
  url : option string;
  description : option string;
  snippet : option string;
  source : option string;
  meta_url : option meta_url_obj;
}.

Record result_collection : Type := ResultCollection {
  results : option (list search_item);
}.

Record search_body : Type := SearchBody {
  news : option result_collection;
  web : option result_collection;
}.

(** One element of [processed_items]. *)
Record news_item : Type := NewsItem {
  item_title : string;
  item_url : string;
  item_snippet : string;
  item_source : string;
}.

(** The dict the function returns: [{"error": ...}], [{"news": ...}] or
    [{"message": ...}]. *)
Inductive news_result : Type :=
| NewsError (error : string)
| NewsList (processed_items : list news_item)
| NewsMessage (message : string).

(** The search request and the warnings of the sidebar. *)
Inductive news_event : Type :=
| SearchRequest (q : string) (count : nat)
| SidebarNewsHTTP (error_message : string)
| SidebarNewsConnection (coin_name : string)
| SidebarNewsUnexpected (coin_name : string).

(** [o] if the key is there, else the default. *)
Definition get_or {A} (o : option A) (default : A) : A :=
  match o with
  | Some a => a
  | None => default
  end.

(** [data.get(k, {}).get('results', [])] *)
Definition results_of (collection : option result_collection)
  : list search_item :=
  get_or (results (get_or collection (ResultCollection None))) [].

(** The body of the two [for item in ...] loops. *)
Definition process_item (item : search_item) : news_item :=
  NewsItem
    (get_or (title item) "N/A")
    (get_or (url item) "#")
    (get_or (description item) (get_or (snippet item) "N/A"))
    (get_or (source item)
       (get_or (hostname (get_or (meta_url item) (MetaUrl None))) "N/A")).

(** Lines 269-311: the normalisation of a parsed body. *)
Definition normalize_results (coin_name : string) (data : search_body)
  : news_result :=
  let news_specific_results := results_of (news data) in
  let processed_items :=
    match news_specific_results with
    | [] => []
    | _ :: _ => map process_item news_specific_results
    end in
  let processed_items :=
    match processed_items with
    | [] =>
        match results_of (web data) with
        | [] => processed_items
        | (_ :: _) as general_web_results =>
            processed_items ++ map process_item general_web_results
        end
    | _ :: _ => processed_items
    end in
  match processed_items with
  | _ :: _ => NewsList processed_items
  | [] =>
      NewsMessage ("Nenhuma notícia ou resultado web relevante encontrado para "
                   +:+ coin_name +:+ " com os filtros atuais.")
  end.

(** The error message of an [HTTPError] (lines 313-319). *)
Definition news_http_error_message (coin_name : string) (status_code : Z)
  : string :=
  "Erro HTTP " +:+ str_of_Z status_code +:+
  " com Brave Web Search API para " +:+ coin_name +:+ "." +:+
  (if status_code =? 401 then " Verifique sua Brave API Key."
   else if status_code =? 429 then " Limite de requisições da Brave API atingido."
   else if status_code =? 403 then
     " Acesso não autorizado à Brave API. Verifique sua subscrição ou endpoint."
   else "").

(** [get_brave_search_news(coin_name, b_api_key, count)] against the search
    endpoint [search], which is asked with the query [q] and [count]. *)
Definition get_brave_search_news (coin_name b_api_key : string) (count : nat)
    (search : string -> nat -> response search_body)
  : Writer news_event news_result :=
  if String.eqb b_api_key "" then
    ui_ret (NewsError "Brave Search API Key não fornecida.")
  else if String.eqb coin_name "" then
    ui_ret (NewsError "Nome da moeda não fornecido.")
  else
    let q := coin_name +:+ " coin news" in
    say! (SearchRequest q count) in
    match search q count with
    | Ok data => ui_ret (normalize_results coin_name data)
    | HTTPError status_code _ =>
        let error_message := news_http_error_message coin_name status_code in
        say! (SidebarNewsHTTP error_message) in
        ui_ret (NewsError error_message)
    | RequestException =>
        say! (SidebarNewsConnection coin_name) in
        ui_ret (NewsError ("Erro de conexão com Brave Web Search API para "
                           +:+ coin_name +:+ "."))
    | OtherException =>
        say! (SidebarNewsUnexpected coin_name) in
        ui_ret (NewsError ("Erro inesperado ao buscar notícias para "
                           +:+ coin_name +:+ "."))
    end.

(** The default of the parameter [count]. *)
Definition DEFAULT_COUNT : nat := 3.

(** *** Specification vocabulary and scenario data of the news *)

(** The collection the normalisation reads its items from: the "news"
    results unless they are empty or absent, then the "web" results. *)
Definition chosen_results (data : search_body) : list search_item :=
  match results_of (news data) with
  | [] => results_of (web data)
  | (_ :: _) as l => l
  end.

Definition web_item_1 : search_item :=
  SearchItem (Some "Bitcoin rallies") (Some "https://example.org/1") None
             (Some "BTC is up") None (Some (MetaUrl (Some "example.org"))).

Definition web_item_2 : search_item :=
  SearchItem (Some "Markets today") (Some "https://example.org/2")
             (Some "A summary") (Some "ignored") (Some "Example News") None.

(** A body with only "web" results, no "news" key. *)
Definition body_web_only : search_body :=
  SearchBody None (Some (ResultCollection (Some [web_item_1; web_item_2]))).

(** A body with four "news" results. *)
Definition body_four_news : search_body :=
  SearchBody
    (Some (ResultCollection (Some [web_item_1; web_item_2; web_item_1; web_item_2])))
    None.

(** A search endpoint that answers every query with the same body. *)
Definition search_const (data : search_body) (q : string) (count : nat)
  : response search_body := Ok data.

(** * Further specification vocabulary *)

(** The coins whose change equals [k]. *)
Definition same_change (k : Q) (c : coin) : bool := Qeq_bool (change_key c) k.

(** The identifiers of [ids] in the order of their first occurrence. *)
Definition first_occurrences (ids : list string) : list string :=
  rev (nodup string_dec (rev ids)).

(** A page request that did not give a body. *)
Definition is_failure {A} (r : response A) : Prop :=
  match r with
  | Ok _ => False
  | _ => True
  end.

(** ** [get_binance_tradable_usdt_pairs] *)

(** The entry [binance_usdt_pairs] of [st.session_state]: not there, there
    with the value [None], or there with a set. *)
Inductive pairs_cell : Type :=
| CellAbsent
| CellNone
| CellSet (pairs : gset string).

(** One element of [data['symbols']]. The three keys are subscripted: a
    missing key raises [KeyError]. *)
Record symbol_info : Type := SymbolInfo {
  info_symbol : option string;
  quoteAsset : option string;
  status : option string;
}.

(** The body of [/api/v3/exchangeInfo]; [None] when it has no key
    [symbols]. *)
Record exchange_info : Type := ExchangeInfo {
  symbols : option (list symbol_info);
}.

(** What the function does besides returning. *)
Inductive pairs_event : Type :=
| ExchangeInfoRequest
| SidebarPairsError          (* "Erro ao buscar pares da Binance: ..." *)
| SidebarPairsUnexpected.    (* "Erro inesperado ao processar pares ..." *)

(** [{s['symbol'] for s in l if s['quoteAsset'] == 'USDT' and
    s['status'] == 'TRADING'}]; [None] when a subscript raises. The
    [and] does not read [status] when the quote asset is another one, and
    [symbol] is read only for an element that passes the test. *)
Fixpoint usdt_trading (l : list symbol_info) : option (gset string) :=
  match l with
  | [] => Some ∅
  | s :: l' =>
      match quoteAsset s with
      | None => None
      | Some quote =>
          if String.eqb quote "USDT" then
            match status s with
            | None => None
            | Some st =>
                if String.eqb st "TRADING" then
                  match info_symbol s with
                  | None => None
                  | Some sym =>
                      match usdt_trading l' with
                      | None => None
                      | Some pairs => Some ({[ sym ]} ∪ pairs)
                      end
                  end
                else usdt_trading l'
            end
          else usdt_trading l'
      end
  end.

(** The value the final [return st.session_state.binance_usdt_pairs]
    reads. The entry is always there at that point. *)
Definition read_pairs (cell : pairs_cell) : pairs_arg :=
  match cell with
  | CellAbsent | CellNone => PairsNone
  | CellSet pairs => PairsSet pairs
  end.

(** [get_binance_tradable_usdt_pairs()] with the session entry [cell] and
    the answer [exchange] of the exchange-info endpoint: the new entry and
    the value returned. *)
Definition get_binance_tradable_usdt_pairs (cell : pairs_cell)
    (exchange : response exchange_info)
  : Writer pairs_event (pairs_cell * pairs_arg) :=
  let! cell' :=
    match cell with
    | CellAbsent | CellNone =>
        say! ExchangeInfoRequest in
        match exchange with
        | Ok data =>
            match symbols data with
            | Some l =>
                match usdt_trading l with
                | Some pairs => ui_ret (CellSet pairs)
                | None => say! SidebarPairsUnexpected in ui_ret (CellSet ∅)
                end
            | None => say! SidebarPairsUnexpected in ui_ret (CellSet ∅)
            end
        | HTTPError _ _ | RequestException =>
            say! SidebarPairsError in ui_ret (CellSet ∅)
        | OtherException =>
            say! SidebarPairsUnexpected in ui_ret (CellSet ∅)
        end
    | CellSet _ => ui_ret cell
    end in
  ui_ret (cell', read_pairs cell').

(** An element of [symbols] that the comprehension keeps. *)
Definition is_usdt_trading (s : symbol_info) (sym : string) : Prop :=
  info_symbol s = Some sym /\ quoteAsset s = Some "USDT"%string /\
  status s = Some "TRADING"%string.

(** Scenario data: two pairs, one of them halted. *)
Definition exchange_two : exchange_info :=
  ExchangeInfo (Some [SymbolInfo (Some "ABCUSDT") (Some "USDT") (Some "TRADING");
                      SymbolInfo (Some "XYZUSDT") (Some "USDT") (Some "BREAK");
                      SymbolInfo (Some "ABCBTC") (Some "BTC") (Some "TRADING")]).

(** ** The loop over the ranked coins (lines 351-353) *)

(** [check_binance_data(coin.get('symbol', 'N/A').upper(), pairs)] for
    each coin of [top_coins_data], in order: the symbol column and the three
    Binance columns of the table. *)
Fixpoint check_coins (top_coins_data : list coin)
    (tradable_usdt_pairs : pairs_arg)
    (ticker : string -> response ticker_body)
  : Writer binance_event (list (string * binance_result)) :=
  match top_coins_data with
  | [] => ui_ret []
  | coin :: rest =>
      let coin_symbol_upper := upper (symbol coin) in
      let! binance_data :=
        check_binance_data coin_symbol_upper tradable_usdt_pairs ticker in
      let! rows := check_coins rest tradable_usdt_pairs ticker in
      ui_ret ((coin_symbol_upper, binance_data) :: rows)
  end.

(** The ticker requests of a log. *)
Definition ticker_requests (log : list binance_event) : list string :=
  flat_map (fun e => match e with
                     | TickerRequest sym => [sym]
                     | _ => []
                     end) log.

(** ** The news panel (lines 455-481) *)

(** What the loop over the rows does besides showing: the events of
    [get_brave_search_news], and [time.sleep(1.1)]. *)
Inductive panel_event : Type :=
| NewsEvent (e : news_event)
| Sleep.

(** The truth value of a result of [get_brave_search_news]: each of them is
    a dict with one key, which Python takes as true. *)
Definition news_result_truthy (r : news_result) : bool :=
  match r with
  | NewsError _ | NewsList _ | NewsMessage _ => true
  end.

(** The branch that asks: the call with [count=3], the store into the
    cache, the sleep. *)
Definition fetch_and_cache (coin_name_for_search brave_api_key : string)
    (search : string -> nat -> response search_body)
    (news_cache : gmap string news_result)
  : Writer panel_event (gmap string news_result * news_result) :=
  let '(w, news_result) :=
    get_brave_search_news coin_name_for_search brave_api_key 3 search in
  (map NewsEvent w ++ [Sleep],
   (<[coin_name_for_search := news_result]> news_cache, news_result)).

(** One turn of [for index, row in df_to_display.iterrows()]: the cache
    after it and the result shown in the expander of the row. *)
Definition news_for_row (coin_name_for_search brave_api_key : string)
    (search : string -> nat -> response search_body)
    (news_cache : gmap string news_result)
  : Writer panel_event (gmap string news_result * news_result) :=
  match news_cache !! coin_name_for_search with
  | Some cached =>
      if news_result_truthy cached then ui_ret (news_cache, cached)
      else fetch_and_cache coin_name_for_search brave_api_key search news_cache
  | None =>
      fetch_and_cache coin_name_for_search brave_api_key search news_cache
  end.

(** The loop over the column [Nome] of the table. *)
Fixpoint news_for_rows (names : list string) (brave_api_key : string)
    (search : string -> nat -> response search_body)
    (news_cache : gmap string news_result)
  : Writer panel_event (gmap string news_result * list news_result) :=
  match names with
  | [] => ui_ret (news_cache, [])
  | coin_name_for_search :: rest =>
      let! r := news_for_row coin_name_for_search brave_api_key search news_cache in
      let! rs := news_for_rows rest brave_api_key search (fst r) in
      ui_ret (fst rs, snd r :: snd rs)
  end.

(** The search requests of a log of [get_brave_search_news]. *)
Definition search_requests (log : list news_event) : list (string * nat) :=
  flat_map (fun e => match e with
                     | SearchRequest q count => [(q, count)]
                     | _ => []
                     end) log.

(** No two search requests without a sleep between them, and a sleep after
    the last one. [pending] tells that a request was made since the last
    sleep. *)
Fixpoint paced (pending : bool) (log : list panel_event) : bool :=
  match log with
  | [] => negb pending
  | NewsEvent (SearchRequest _ _) :: rest => negb pending && paced true rest
  | NewsEvent _ :: rest => paced pending rest
  | Sleep :: rest => paced false rest
  end.

(** ** The captions of the API keys (lines 40 and 64) *)

(** [key[-4:]] *)
Definition last4 (key : string) : string :=
  string_of_list_ascii
    (skipn (length (list_ascii_of_string key) - 4) (list_ascii_of_string key)).

(** [key[-4:] if len(key) > 4 else '****'], the part of the caption that
    follows the three dots. Keys are ASCII, so that [len] counts bytes. *)
Definition masked_key (key : string) : string :=
  if (4 <? String.length key)%nat then last4 key else "****".
(** * Properties of the ranking *)

Section Ranking.

Local Open Scope Q_scope.

Lemma Qlt_bool_iff (x y : Q) : Qlt_bool x y = true <-> x < y.
Proof.
  unfold Qlt_bool. rewrite negb_true_iff. split.
  - intros E. apply Qnot_le_lt. intros H%Qle_bool_iff. congruence.
  - intros H. destruct (Qle_bool y x) eqn:E; [|reflexivity].
    apply Qle_bool_iff in E. exfalso. exact (Qlt_not_le _ _ H E).
Qed.

Lemma Qle_bool_false (x y : Q) : Qle_bool x y = false -> y <= x.
Proof.
  intros E. apply Qlt_le_weak, Qnot_le_lt. intros H%Qle_bool_iff. congruence.
Qed.

Lemma qualifies_iff (c : coin) :
  qualifies c <-> has_change c = true /\ has_volume c = true.
Proof.
  unfold qualifies, has_change, has_volume. split.
  - intros (q & v & -> & -> & Hv). split; [reflexivity|]. by apply Qlt_bool_iff.
  - destruct (price_change_percentage_24h_in_currency c) as [q|]; [|intros [? _]; discriminate].
    destruct (total_volume c) as [v|]; [|intros [_ ?]; discriminate].
    intros [_ Hv%Qlt_bool_iff]. eauto.
Qed.

(** *** The sort *)

Lemma insert_desc_perm (x : coin) (l : list coin) :
  Permutation (insert_desc x l) (x :: l).
Proof.
  induction l as [|y l IH]; simpl; [reflexivity|].
  destruct (Qle_bool _ _); [reflexivity|].
  rewrite IH. apply perm_swap.
Qed.

Lemma sorted_desc_perm (l : list coin) : Permutation (sorted_desc l) l.
Proof.
  induction l as [|x l IH]; simpl; [reflexivity|].
  rewrite insert_desc_perm. by constructor.
Qed.

Lemma insert_desc_Forall (P : coin -> Prop) (x : coin) (l : list coin) :
  P x -> Forall P l -> Forall P (insert_desc x l).
Proof.
  intros Hx Hl. eapply Permutation_Forall; [symmetry; apply insert_desc_perm|].
  by constructor.
Qed.

Lemma insert_desc_sorted (x : coin) (l : list coin) :
  StronglySorted change_ge l -> StronglySorted change_ge (insert_desc x l).
Proof.
  induction 1 as [|y l Hs IH Hy]; simpl.
  - repeat constructor.
  - destruct (Qle_bool (change_key y) (change_key x)) eqn:E.
    + apply Qle_bool_iff in E. constructor; [by constructor|].
      constructor; [exact E|].
      eapply List.Forall_impl; [|exact Hy]. intros z Hz. unfold change_ge in *.
      by eapply Qle_trans.
    + constructor; [exact IH|].
      apply insert_desc_Forall; [|exact Hy].
      by apply Qle_bool_false.
Qed.

Lemma sorted_desc_sorted (l : list coin) : StronglySorted change_ge (sorted_desc l).
Proof.
  induction l as [|x l IH]; simpl; [constructor|]. by apply insert_desc_sorted.
Qed.

Lemma firstn_In {A} (n : nat) (l : list A) (x : A) :
  In x (firstn n l) -> In x l.
Proof.
  intros H. rewrite <- (firstn_skipn n l). apply in_or_app. by left.
Qed.

Lemma firstn_StronglySorted {A} (R : A -> A -> Prop) (n : nat) (l : list A) :
  StronglySorted R l -> StronglySorted R (firstn n l).
Proof.
  intros Hs. revert n. induction Hs as [|x l Hs IH Hx]; intros [|n]; simpl;
    try constructor; [apply IH|].
  rewrite List.Forall_forall in *. intros y Hy. apply Hx. eapply firstn_In, Hy.
Qed.

(** *** What the filters leave *)

Lemma filtered_by_volume_In (all : list coin) (c : coin) :
  In c (filtered_by_volume all) <-> In c (unique_coins_data all) /\ qualifies c.
Proof.
  unfold filtered_by_volume, valid_coins. rewrite !filter_In, qualifies_iff. tauto.
Qed.

Lemma sorted_coins_In (all : list coin) (c : coin) :
  In c (sorted_coins all) <-> In c (filtered_by_volume all).
Proof.
  unfold sorted_coins. split; apply Permutation_in;
    [|symmetry]; apply sorted_desc_perm.
Qed.

Lemma top_coins_In (all : list coin) (c : coin) :
  In c (top_coins all) -> In c (unique_coins_data all) /\ qualifies c.
Proof.
  intros H. apply filtered_by_volume_In, sorted_coins_In.
  eapply firstn_In, H.
Qed.

(** A coin that qualifies is sorted by its own percentage change. *)
Lemma qualifies_change_key (c : coin) :
  qualifies c -> price_change_percentage_24h_in_currency c = Some (change_key c).
Proof. intros (q & v & Hq & _). unfold change_key. by rewrite Hq. Qed.

(** The value [get_top_gainers] returns, when it returns a list, is
    [top_coins] of the collected list, and is not empty. *)
Lemma rank_collected_Some (all : list coin) (out : list coin) :
  ui_val (rank_collected all) = Some out -> out = top_coins all /\ out <> [].
Proof.
  unfold rank_collected, top_coins. destruct all as [|c all]; [discriminate|].
  destruct (sorted_coins (c :: all)) as [|s ss]; [discriminate|].
  intros [= <-]. split; [reflexivity|discriminate].
Qed.

Lemma get_top_gainers_Some (key : string) (api : nat -> response (list coin))
    (out : list coin) :
  ui_val (get_top_gainers key api) = Some out ->
  exists all, ui_val (fetch_pages api [1%nat; 2%nat] []) = Some all /\
              out = top_coins all.
Proof.
  unfold get_top_gainers. destruct (String.eqb key ""); [discriminate|].
  destruct (fetch_pages api _ _) as [w [all|]] eqn:E; simpl.
  - destruct (rank_collected all) as [w' r] eqn:E'; simpl. intros ->.
    exists all. split; [reflexivity|].
    apply rank_collected_Some. by rewrite E'.
  - discriminate.
Qed.

(** The ranked list is short, sorted and made of qualifying coins. *)
Lemma top_coins_ranked (all : list coin) :
  (length (top_coins all) <= 10)%nat /\
  StronglySorted change_ge (top_coins all) /\
  Forall qualifies (top_coins all).
Proof.
  split; [|split].
  - unfold top_coins. rewrite length_firstn. lia.
  - apply firstn_StronglySorted, sorted_desc_sorted.
  - apply List.Forall_forall. by intros c [_ Hq]%top_coins_In.
Qed.

(** The same for a list returned by [get_top_gainers]. *)
Lemma get_top_gainers_ranked (key : string)
    (api : nat -> response (list coin)) (out : list coin) :
  ui_val (get_top_gainers key api) = Some out ->
  (length out <= 10)%nat /\ StronglySorted change_ge out /\ Forall qualifies out.
Proof.
  intros (all & _ & ->)%get_top_gainers_Some. apply top_coins_ranked.
Qed.

(** C1. For every list of collected snapshots the ranked output
    [sorted_coins[:10]] has at most 10 elements, is sorted by 24h percentage
    change in descending order (every element has a change at least that of
    every later element), and each element has a defined 24h percentage
    change (the key it is sorted by) and a total volume strictly above
    1,000,000. *)
Theorem C1_top_coins_bounded_sorted_qualified (all_coins_data : list coin) :
  (length (top_coins all_coins_data) <= 10)%nat /\
  StronglySorted change_ge (top_coins all_coins_data) /\
  Forall (fun c =>
            price_change_percentage_24h_in_currency c = Some (change_key c) /\
            exists v, total_volume c = Some v /\ 1000000 # 1 < v)
         (top_coins all_coins_data).
Proof.
  destruct (top_coins_ranked all_coins_data) as (Hlen & Hsorted & Hq).
  split; [exact Hlen|split; [exact Hsorted|]].
  eapply List.Forall_impl; [|exact Hq]. intros c Hc.
  split; [by apply qualifies_change_key|].
  destruct Hc as (q & v & _ & Hv & Hlt). eauto.
Qed.

Example scenario_1 : top_coins [coin_a; coin_b] = [coin_a].
Proof. reflexivity. Qed.

Example scenario_2 : top_coins [coin_x3; coin_x7] = [coin_x7].
Proof. reflexivity. Qed.

End Ranking.

(** * Properties of the deduplication *)

Section Dedup.

Lemma dict_get_set (k k' : string) (v : coin) (d : list (string * coin)) :
  dict_get k (dict_set k' v d) = if String.eqb k k' then Some v else dict_get k d.
Proof.
  induction d as [|[k0 v0] d IH]; simpl; [reflexivity|].
  destruct (String.eqb_spec k' k0) as [->|Hne]; simpl.
  - by destruct (String.eqb k k0).
  - rewrite IH. destruct (String.eqb_spec k k0) as [->|Hne'].
    + destruct (String.eqb_spec k0 k'); congruence.
    + reflexivity.
Qed.

Lemma dict_set_keys_In (k k0 : string) (v : coin) (d : list (string * coin)) :
  In k0 (map fst (dict_set k v d)) <-> k0 = k \/ In k0 (map fst d).
Proof.
  induction d as [|[k1 v1] d IH]; simpl; [intuition congruence|].
  destruct (String.eqb_spec k k1) as [->|Hne]; simpl; [|rewrite IH];
    intuition congruence.
Qed.

Lemma dict_set_NoDup (k : string) (v : coin) (d : list (string * coin)) :
  List.NoDup (map fst d) -> List.NoDup (map fst (dict_set k v d)).
Proof.
  induction d as [|[k0 v0] d IH]; simpl.
  - intros _. repeat constructor. intros [].
  - intros [Hk0 Hnd]%List.NoDup_cons_iff.
    destruct (String.eqb_spec k k0) as [->|Hne]; simpl.
    + by constructor.
    + constructor; [|by apply IH].
      rewrite dict_set_keys_In. intuition congruence.
Qed.

Lemma dict_set_keyed (v : coin) (d : list (string * coin)) :
  keyed d -> keyed (dict_set (coin_id v) v d).
Proof.
  unfold keyed. induction 1 as [|[k0 v0] d Hk Hd IH]; simpl.
  - by repeat constructor.
  - destruct (String.eqb_spec (coin_id v) k0) as [<-|Hne]; by constructor.
Qed.

(** In a dict with distinct, faithful keys, the values are found by key. *)
Lemma dict_values_In (d : list (string * coin)) (c : coin) :
  List.NoDup (map fst d) -> keyed d ->
  In c (map snd d) <-> dict_get (coin_id c) d = Some c.
Proof.
  unfold keyed. induction d as [|[k0 v0] d IH]; simpl.
  - intros _ _. split; [tauto|discriminate].
  - intros [Hk0 Hnd]%List.NoDup_cons_iff [Hkv Hkd]%List.Forall_cons_iff.
    simpl in Hkv. destruct (String.eqb_spec (coin_id c) k0) as [<-|Hne].
    + split; [|intros [= ->]; by left].
      intros [->|Hin]; [reflexivity|]. exfalso. apply Hk0.
      apply in_map_iff in Hin as ([k v] & Hv & Hin). simpl in Hv. subst v.
      rewrite List.Forall_forall in Hkd. apply Hkd in Hin as Hk. simpl in Hk.
      subst k. apply in_map_iff. by exists (coin_id c, c).
    + rewrite <- (IH Hnd Hkd). split; [|tauto].
      intros [->|Hin]; [congruence|exact Hin].
Qed.

Lemma unique_coins_map_snoc (l : list coin) (c : coin) :
  unique_coins_map (l ++ [c]) = dict_set (coin_id c) c (unique_coins_map l).
Proof. unfold unique_coins_map. by rewrite fold_left_app. Qed.

Lemma last_with_id_snoc (i : string) (l : list coin) (c : coin) :
  last_with_id i (l ++ [c]) =
  if String.eqb (coin_id c) i then Some c else last_with_id i l.
Proof. unfold last_with_id. by rewrite rev_unit. Qed.

Lemma unique_coins_map_inv (l : list coin) :
  List.NoDup (map fst (unique_coins_map l)) /\ keyed (unique_coins_map l) /\
  forall i, dict_get i (unique_coins_map l) = last_with_id i l.
Proof.
  induction l as [|c l (Hnd & Hk & Hget)] using rev_ind.
  - split; [constructor|]. split; [constructor|reflexivity].
  - rewrite unique_coins_map_snoc. split; [by apply dict_set_NoDup|].
    split; [by apply dict_set_keyed|]. intros i.
    rewrite dict_get_set, last_with_id_snoc, Hget.
    by rewrite String.eqb_sym.
Qed.

(** [last_with_id] finds the last occurrence. *)
Lemma last_with_id_Some (i : string) (l : list coin) (c : coin) :
  last_with_id i l = Some c <-> coin_id c = i /\ is_last_occurrence c l.
Proof.
  unfold is_last_occurrence. induction l as [|d l IH] using rev_ind.
  - split; [discriminate|]. intros (_ & [|] & l2 & ? & _); discriminate.
  - rewrite last_with_id_snoc.
    destruct (String.eqb_spec (coin_id d) i) as [Hd|Hd].
    + split.
      * intros [= ->]. split; [exact Hd|]. exists l, []. by split.
      * intros (Hc & l1 & l2 & Hl & Hl2).
        destruct l2 as [|e l2 _] using rev_ind.
        -- apply app_inj_tail in Hl as [_ ->]. reflexivity.
        -- rewrite app_comm_cons, app_assoc in Hl.
           apply app_inj_tail in Hl as [_ ->].
           apply Forall_app in Hl2 as [_ He].
           apply List.Forall_cons_iff in He as [He _]. congruence.
    + rewrite IH. split.
      * intros (Hc & l1 & l2 & -> & Hl2). split; [exact Hc|].
        exists l1, (l2 ++ [d]). split; [by rewrite <- app_assoc|].
        apply Forall_app. split; [exact Hl2|]. repeat constructor. congruence.
      * intros (Hc & l1 & l2 & Hl & Hl2). split; [exact Hc|].
        destruct l2 as [|e l2 _] using rev_ind.
        -- apply app_inj_tail in Hl as [_ ->]. congruence.
        -- rewrite app_comm_cons, app_assoc in Hl.
           apply app_inj_tail in Hl as [-> ->].
           apply Forall_app in Hl2 as [Hl2 _]. by exists l1, l2.
Qed.

Lemma unique_coins_data_NoDup (l : list coin) :
  List.NoDup (map coin_id (unique_coins_data l)).
Proof.
  destruct (unique_coins_map_inv l) as (Hnd & Hk & _).
  unfold unique_coins_data. rewrite map_map.
  erewrite map_ext_in; [exact Hnd|].
  intros kv Hkv. unfold keyed in Hk. rewrite List.Forall_forall in Hk. by apply Hk.
Qed.

Lemma unique_coins_data_In (l : list coin) (c : coin) :
  In c (unique_coins_data l) <-> is_last_occurrence c l.
Proof.
  destruct (unique_coins_map_inv l) as (Hnd & Hk & Hget).
  unfold unique_coins_data. rewrite dict_values_In, Hget, last_with_id_Some by assumption.
  tauto.
Qed.

Lemma unique_coins_data_ids (l : list coin) (i : string) :
  In i (map coin_id (unique_coins_data l)) <-> In i (map coin_id l).
Proof.
  rewrite !in_map_iff. split.
  - intros (c & Hc & (l1 & l2 & -> & _)%unique_coins_data_In).
    exists c. split; [exact Hc|]. apply in_elt.
  - intros (c & Hc & Hin).
    destruct (last_with_id i l) as [d|] eqn:E.
    + apply last_with_id_Some in E as [Hd Hlast].
      exists d. split; [exact Hd|]. by apply unique_coins_data_In.
    + exfalso. unfold last_with_id in E.
      eapply find_none in E; [|apply in_rev; rewrite rev_involutive; exact Hin].
      simpl in E. apply String.eqb_neq in E. congruence.
Qed.

(** A coin of the ranked output is the last record of its identifier. *)
Lemma top_coins_last (all : list coin) (c : coin) :
  In c (top_coins all) -> is_last_occurrence c all /\ qualifies c.
Proof.
  intros [Hin Hq]%top_coins_In. split; [|exact Hq]. by apply unique_coins_data_In.
Qed.

Lemma is_last_occurrence_unique (l : list coin) (c d : coin) :
  is_last_occurrence c l -> is_last_occurrence d l -> coin_id c = coin_id d ->
  c = d.
Proof.
  intros Hc Hd Hid.
  assert (last_with_id (coin_id c) l = Some c) as E1
    by by apply last_with_id_Some.
  assert (last_with_id (coin_id c) l = Some d) as E2
    by by apply last_with_id_Some.
  congruence.
Qed.

(** C3. Deduplication keeps exactly one record for each identifier of the
    input (the identifiers of the deduplicated list are those of the input,
    without repetition), and the record kept is the one that occurs last in
    the input. Hence every coin of the ranked output is the last record of
    its identifier, with that record's field values, and an identifier
    whose last record does not qualify is not in the ranked output, whatever
    its earlier records say. *)
Theorem C3_dedup_last_record_wins (all_coins_data : list coin) :
  List.NoDup (map coin_id (unique_coins_data all_coins_data)) /\
  (forall i, In i (map coin_id (unique_coins_data all_coins_data)) <->
             In i (map coin_id all_coins_data)) /\
  (forall c, In c (unique_coins_data all_coins_data) <->
             is_last_occurrence c all_coins_data) /\
  (forall c, In c (top_coins all_coins_data) ->
             is_last_occurrence c all_coins_data) /\
  (forall c, is_last_occurrence c all_coins_data -> ~ qualifies c ->
             ~ In (coin_id c) (map coin_id (top_coins all_coins_data))).
Proof.
  split; [apply unique_coins_data_NoDup|].
  split; [apply unique_coins_data_ids|].
  split; [apply unique_coins_data_In|].
  split; [intros c Hc; by apply top_coins_last in Hc as [? _]|].
  intros c Hc Hnq (d & Hid & [Hd Hq]%top_coins_last)%in_map_iff.
  apply Hnq. by rewrite (is_last_occurrence_unique all_coins_data c d).
Qed.

End Dedup.

(** * The return value when nothing qualifies *)

Section NoneQualified.

(** C2, as the code has it. When the collected list is not empty and no
    snapshot passes the deduplication and the two filters, the ranking step
    reports [InfoNoneQualified] and returns [None], the value it also
    returns for an empty collected list; the two outcomes differ in the
    message shown, not in the value the caller receives. *)
Theorem C2_none_qualified_returns_None (all_coins_data : list coin) :
  all_coins_data <> [] ->
  filtered_by_volume all_coins_data = [] ->
  rank_collected all_coins_data = ([InfoNoneQualified], None) /\
  ui_val (rank_collected all_coins_data) = ui_val (rank_collected []) /\
  ui_log (rank_collected all_coins_data) <> ui_log (rank_collected []).
Proof.
  intros Hne Hf. unfold rank_collected, sorted_coins. rewrite Hf.
  destruct all_coins_data as [|c l]; [congruence|]. simpl.
  repeat split. discriminate.
Qed.

Lemma C2_none_qualified_returns_None_witness :
  rank_collected [coin_b] = ([InfoNoneQualified], None) /\
  ui_val (rank_collected [coin_b]) = ui_val (rank_collected []) /\
  ui_log (rank_collected [coin_b]) <> ui_log (rank_collected []).
Proof.
  apply (C2_none_qualified_returns_None [coin_b]); [discriminate|reflexivity].
Defined.

(** The claim as worded fails on a collected list whose only snapshot has
    too little volume: the ranking step does not return the empty sequence,
    and its value is the one returned when nothing was fetched. *)
Lemma C2_counterexample :
  [coin_b] <> [] /\
  filtered_by_volume [coin_b] = [] /\
  ui_val (rank_collected [coin_b]) <> Some [] /\
  ui_val (rank_collected [coin_b]) = ui_val (rank_collected []).
Proof. repeat split; discriminate. Qed.

End NoneQualified.

(** * No positivity filter *)

Section Truncation.

Local Open Scope Q_scope.

Lemma filter_Permutation_bool {A} (f : A -> bool) (l l' : list A) :
  Permutation l l' -> Permutation (List.filter f l) (List.filter f l').
Proof.
  induction 1 as [|x l l' _ IH|x y l|l l' l'' _ IH1 _ IH2]; simpl.
  - constructor.
  - destruct (f x); [by constructor|exact IH].
  - destruct (f x), (f y); try reflexivity. apply perm_swap.
  - by etransitivity.
Qed.

Lemma count_rivals_perm (c : coin) (l l' : list coin) :
  Permutation l l' -> count_rivals c l = count_rivals c l'.
Proof.
  intros H. unfold count_rivals.
  by apply Permutation_length, filter_Permutation_bool.
Qed.

Lemma filter_map_NoDup {A B} (g : A -> B) (f : A -> bool) (l : list A) :
  List.NoDup (map g l) -> List.NoDup (map g (List.filter f l)).
Proof.
  induction l as [|x l IH]; simpl; [done|].
  intros [Hx Hl]%List.NoDup_cons_iff. destruct (f x); simpl; [|by apply IH].
  constructor; [|by apply IH].
  intros (y & Hy & [Hin _]%filter_In)%in_map_iff.
  apply Hx, in_map_iff. by exists y.
Qed.

Lemma sorted_coins_NoDup (all : list coin) :
  List.NoDup (map coin_id (sorted_coins all)).
Proof.
  unfold sorted_coins.
  eapply Permutation_NoDup;
    [apply Permutation_map; symmetry; apply sorted_desc_perm|].
  unfold filtered_by_volume, valid_coins.
  do 2 apply filter_map_NoDup. apply unique_coins_data_NoDup.
Qed.

(** In a descending list without repeated identifiers, a coin with fewer
    than [n] rivals is among the first [n]. *)
Lemma firstn_few_rivals (c : coin) (l : list coin) (n : nat) :
  StronglySorted change_ge l -> List.NoDup (map coin_id l) -> In c l ->
  (count_rivals c l < n)%nat -> In c (firstn n l).
Proof.
  intros Hs. revert n. induction Hs as [|a l Hs IH Ha]; [intros ? _ []|].
  intros n [Hna Hnd]%List.NoDup_cons_iff Hin Hn.
  destruct n as [|n]; [lia|]. simpl.
  destruct Hin as [->|Hin]; [by left|]. right.
  apply IH; [exact Hnd|exact Hin|].
  assert (coin_id a <> coin_id c) as Hid.
  { intros Hid. apply Hna. rewrite Hid. by apply in_map. }
  rewrite List.Forall_forall in Ha. apply Ha in Hin as Hge.
  unfold count_rivals in *. simpl in Hn.
  destruct (String.eqb_spec (coin_id a) (coin_id c)) as [?|_]; [done|].
  apply Qle_bool_iff in Hge. rewrite Hge in Hn. simpl in Hn. lia.
Qed.

(** C10, as the code has it. The pipeline has no filter on the sign of the
    change. A snapshot that is the last record of its identifier, has a
    defined 24h percentage change of any sign (a negative one included) and
    a total volume above 1,000,000 is in the ranked output whenever fewer
    than 10 other qualifying coins have a change at least as high as its
    own. *)
Theorem C10_no_positivity_filter (all_coins_data : list coin) (c : coin) (q : Q) :
  is_last_occurrence c all_coins_data ->
  price_change_percentage_24h_in_currency c = Some q ->
  has_volume c = true ->
  (count_rivals c (filtered_by_volume all_coins_data) < 10)%nat ->
  In c (top_coins all_coins_data).
Proof.
  intros Hlast Hq Hv Hcount. unfold top_coins.
  apply firstn_few_rivals.
  - apply sorted_desc_sorted.
  - apply sorted_coins_NoDup.
  - apply sorted_coins_In, filtered_by_volume_In.
    split; [by apply unique_coins_data_In|].
    apply qualifies_iff. unfold has_change. by rewrite Hq.
  - unfold sorted_coins.
    by rewrite (count_rivals_perm c _ _ (sorted_desc_perm _)).
Qed.

(** A coin that fell by 2.5 percent is ranked, after the one that rose. *)
Lemma C10_no_positivity_filter_witness :
  (-2.5 < 0) /\
  In (Coin "d" "D" (Some (-2.5)) (Some 3000000))
     (top_coins [coin_a; Coin "d" "D" (Some (-2.5)) (Some 3000000)]).
Proof.
  split; [reflexivity|].
  apply (C10_no_positivity_filter
           [coin_a; Coin "d" "D" (Some (-2.5)) (Some 3000000)]
           (Coin "d" "D" (Some (-2.5)) (Some 3000000)) (-2.5)).
  - exists [coin_a], []. split; [reflexivity|constructor].
  - reflexivity.
  - reflexivity.
  - vm_compute. lia.
Defined.

(** With "higher" read strictly the claim fails on ties: of eleven coins
    that all fell by one percent the last has no coin with a higher change
    before it, qualifies, and is cut off by the truncation to 10. *)
Lemma C10_counterexample :
  In (fallen "f11") eleven_fallen /\
  price_change_percentage_24h_in_currency (fallen "f11") = Some (-1.0) /\
  (-1.0 < 0) /\
  has_volume (fallen "f11") = true /\
  count_higher (fallen "f11") (filtered_by_volume eleven_fallen) = 0%nat /\
  ~ In (fallen "f11") (top_coins eleven_fallen).
Proof.
  split; [vm_compute; tauto|].
  do 4 (split; [reflexivity|]).
  vm_compute. intros H.
  repeat (destruct H as [H|H]; [discriminate H|]). exact H.
Qed.

End Truncation.

(** * The page loop *)

Section Pages.

Variable api : nat -> response (list coin).

Lemma fetch_pages_ok (p : nat) (rest : list nat) (acc page_data : list coin) :
  api p = Ok page_data ->
  fetch_pages api (p :: rest) acc = fetch_pages api rest (acc ++ page_data).
Proof.
  intros E. simpl. rewrite E. destruct page_data; [by rewrite app_nil_r|done].
Qed.

Lemma fetch_pages_answered (pre rest : list nat) (bodies : list (list coin))
    (acc : list coin) :
  answered api pre bodies ->
  fetch_pages api (pre ++ rest) acc = fetch_pages api rest (acc ++ concat bodies).
Proof.
  intros H. revert acc. induction H as [|p b pre bodies Hp _ IH]; intros acc.
  - by rewrite app_nil_r.
  - rewrite <- app_comm_cons, (fetch_pages_ok _ _ _ _ Hp), IH.
    simpl. by rewrite app_assoc.
Qed.

(** HTTP 401 leaves the loop with [return None], whatever was collected. *)
Lemma fetch_pages_unauthorized (p : nat) (rest : list nat) (acc : list coin)
    (text : string) :
  api p = HTTPError 401 text ->
  fetch_pages api (p :: rest) acc = ([ErrUnauthorized], None).
Proof. intros E. simpl. by rewrite E. Qed.

(** Any other failure leaves the loop with [break] when something was
    collected. *)
Lemma fetch_pages_transient (p : nat) (rest : list nat) (acc : list coin) :
  is_transient (api p) -> acc <> [] ->
  ui_val (fetch_pages api (p :: rest) acc) = Some acc.
Proof.
  intros Ht Hacc. simpl. destruct acc as [|c acc]; [done|].
  destruct (api p) as [b|code text| |]; simpl in Ht; try done.
  destruct (Z.eqb_spec code 401) as [?|_]; [done|].
  by destruct (code =? 429).
Qed.

(** ... and with [return None] when nothing was. *)
Lemma fetch_pages_transient_empty (p : nat) (rest : list nat) :
  is_transient (api p) -> ui_val (fetch_pages api (p :: rest) []) = None.
Proof.
  intros Ht. simpl. destruct (api p) as [b|code| |]; simpl in Ht; try done.
  destruct (Z.eqb_spec code 401) as [?|_]; [done|].
  by destruct (code =? 429).
Qed.

(** C4. Let the pages before page [p] be answered, with the bodies
    [bodies]. If the request for page [p] fails with HTTP 401, the loop
    reports [ErrUnauthorized] and returns [None], whatever [bodies] holds.
    If it fails in any other way (HTTP 429, another status, a connection or
    parsing error) and the bodies collected so far are not empty, the loop
    is left with exactly the snapshots collected so far. *)
Theorem C4_unauthorized_drops_partial_data (pre post : list nat) (p : nat)
    (bodies : list (list coin)) :
  answered api pre bodies ->
  ((exists text, api p = HTTPError 401 text) ->
   fetch_pages api (pre ++ p :: post) [] = ([ErrUnauthorized], None)) /\
  (is_transient (api p) -> concat bodies <> [] ->
   ui_val (fetch_pages api (pre ++ p :: post) []) = Some (concat bodies)).
Proof.
  intros Hpre. rewrite (fetch_pages_answered _ _ _ _ Hpre). simpl. split.
  - intros [text Hp]. by eapply fetch_pages_unauthorized.
  - apply fetch_pages_transient.
Qed.

End Pages.

Lemma C4_unauthorized_drops_partial_data_witness :
  fetch_pages (api_page2_fails 401) [1%nat; 2%nat] [] = ([ErrUnauthorized], None) /\
  ui_val (fetch_pages (api_page2_fails 429) [1%nat; 2%nat] []) = Some [coin_a].
Proof.
  split.
  - apply (C4_unauthorized_drops_partial_data (api_page2_fails 401)
             [1%nat] [] 2%nat [[coin_a]]).
    + repeat constructor.
    + by exists ""%string.
  - apply (C4_unauthorized_drops_partial_data (api_page2_fails 429)
             [1%nat] [] 2%nat [[coin_a]]).
    + repeat constructor.
    + simpl. lia.
    + discriminate.
Defined.

(** The same at the level of [get_top_gainers]: a 401 on either page makes
    it return [None]; another failure on page 2 makes it rank page 1. *)
Lemma get_top_gainers_unauthorized (key : string)
    (api : nat -> response (list coin)) (pre post : list nat) (p : nat)
    (bodies : list (list coin)) (text : string) :
  key <> ""%string -> pre ++ p :: post = [1%nat; 2%nat] ->
  answered api pre bodies -> api p = HTTPError 401 text ->
  get_top_gainers key api = ([ErrUnauthorized], None).
Proof.
  intros Hkey Hpages Hpre Hp. unfold get_top_gainers.
  destruct (String.eqb_spec key ""); [done|].
  rewrite <- Hpages, (fetch_pages_answered _ _ _ _ _ Hpre).
  by rewrite (fetch_pages_unauthorized _ _ _ _ _ Hp).
Qed.

Lemma get_top_gainers_partial (key : string)
    (api : nat -> response (list coin)) (page_data : list coin) :
  key <> ""%string -> api 1%nat = Ok page_data -> page_data <> [] ->
  is_transient (api 2%nat) ->
  ui_val (get_top_gainers key api) = ui_val (rank_collected page_data).
Proof.
  intros Hkey H1 Hne H2. unfold get_top_gainers.
  destruct (String.eqb_spec key ""); [done|].
  rewrite (fetch_pages_ok _ _ _ _ _ H1). simpl app.
  pose proof (fetch_pages_transient api 2 [] page_data H2 Hne) as E.
  destruct (fetch_pages api [2%nat] page_data) as [w r]. simpl in E. subst r.
  unfold ui_bind. by destruct (rank_collected page_data).
Qed.

(** * The exchange check *)

Section Binance.

Variable ticker : string -> response ticker_body.

(** The three early returns of [check_binance_data]. *)
Lemma check_binance_data_none (coin_symbol : string) :
  check_binance_data coin_symbol PairsNone ticker =
  ([], BinanceResult STATUS_CHECK_UNAVAILABLE NOT_AVAILABLE NOT_AVAILABLE).
Proof. reflexivity. Qed.

Lemma check_binance_data_empty (coin_symbol : string) :
  check_binance_data coin_symbol (PairsSet ∅) ticker =
  ([], BinanceResult STATUS_EXCHANGE_UNAVAILABLE NOT_AVAILABLE NOT_AVAILABLE).
Proof. unfold check_binance_data. by rewrite decide_True. Qed.

Lemma check_binance_data_not_listed (coin_symbol : string) (pairs : gset string) :
  pairs ≠ ∅ -> upper coin_symbol +:+ "USDT" ∉ pairs ->
  check_binance_data coin_symbol (PairsSet pairs) ticker =
  ([], BinanceResult STATUS_NOT_LISTED NOT_AVAILABLE NOT_AVAILABLE).
Proof.
  intros Hne Hnot. unfold check_binance_data.
  rewrite decide_False by exact Hne. by rewrite decide_True.
Qed.

(** A listed symbol: one ticker request, then the answer decides. *)
Lemma check_binance_data_listed (coin_symbol : string) (pairs : gset string)
    (data : ticker_body) (price volume_usdt : Q) :
  upper coin_symbol +:+ "USDT" ∈ pairs ->
  ticker (upper coin_symbol +:+ "USDT") = Ok data ->
  float_of_field (lastPrice data) = Some price ->
  float_of_field (quoteVolume data) = Some volume_usdt ->
  check_binance_data coin_symbol (PairsSet pairs) ticker =
  ([TickerRequest (upper coin_symbol +:+ "USDT")],
   BinanceResult STATUS_LISTED (format_price price) (format_volume volume_usdt)).
Proof.
  intros Hin Ht Hp Hv. unfold check_binance_data.
  rewrite decide_False by set_solver.
  rewrite decide_False by (intros Hnot; by apply Hnot).
  by rewrite Ht, Hp, Hv.
Qed.

(** C5. Without issuing a ticker request (the log of events is empty) and
    with price and volume both ["N/A"], [check_binance_data] returns: the
    status "check unavailable" when it is given no pair set; the status
    "exchange unavailable" when it is given the empty pair set; the status
    "not listed" when it is given a non-empty pair set that lacks the
    upper-cased symbol followed by USDT, as for "XYZ" and the pair set
    of "ABCUSDT". The three statuses are pairwise different. *)
Theorem C5_statuses_without_ticker_request (coin_symbol : string) :
  check_binance_data coin_symbol PairsNone ticker =
    ([], BinanceResult STATUS_CHECK_UNAVAILABLE "N/A" "N/A") /\
  check_binance_data coin_symbol (PairsSet ∅) ticker =
    ([], BinanceResult STATUS_EXCHANGE_UNAVAILABLE "N/A" "N/A") /\
  (forall pairs : gset string,
     pairs ≠ ∅ -> upper coin_symbol +:+ "USDT" ∉ pairs ->
     check_binance_data coin_symbol (PairsSet pairs) ticker =
       ([], BinanceResult STATUS_NOT_LISTED "N/A" "N/A")) /\
  check_binance_data "XYZ" (PairsSet pairs_abc) ticker =
    ([], BinanceResult STATUS_NOT_LISTED "N/A" "N/A") /\
  STATUS_CHECK_UNAVAILABLE <> STATUS_EXCHANGE_UNAVAILABLE /\
  STATUS_CHECK_UNAVAILABLE <> STATUS_NOT_LISTED /\
  STATUS_EXCHANGE_UNAVAILABLE <> STATUS_NOT_LISTED.
Proof.
  split; [apply check_binance_data_none|].
  split; [apply check_binance_data_empty|].
  split; [apply check_binance_data_not_listed|].
  split; [|repeat split; discriminate].
  apply check_binance_data_not_listed; unfold pairs_abc.
  - intros H. apply (not_elem_of_empty (C:=gset string) "ABCUSDT"%string).
    rewrite <- H. by apply elem_of_singleton.
  - intros H%elem_of_singleton. discriminate H.
Qed.

(** A listed symbol whose ticker body has a field on which [float]
    raises: one ticker request, one warning, the data-error status. *)
Lemma check_binance_data_unparsable (coin_symbol : string) (pairs : gset string)
    (data : ticker_body) :
  upper coin_symbol +:+ "USDT" ∈ pairs ->
  ticker (upper coin_symbol +:+ "USDT") = Ok data ->
  lastPrice data = Unparsable \/ quoteVolume data = Unparsable ->
  check_binance_data coin_symbol (PairsSet pairs) ticker =
  ([TickerRequest (upper coin_symbol +:+ "USDT");
    SidebarData (upper coin_symbol +:+ "USDT")],
   BinanceResult STATUS_DATA NOT_AVAILABLE NOT_AVAILABLE).
Proof.
  intros Hin Ht [E|E]; unfold check_binance_data;
    (rewrite decide_False by set_solver);
    (rewrite decide_False by (intros Hnot; by apply Hnot));
    rewrite Ht, E; simpl.
  - reflexivity.
  - by destruct (float_of_field (lastPrice data)).
Qed.

(** C9, as the code has it. When the symbol is in the pair set and the
    ticker request succeeds with a body that lacks [lastPrice] or
    [quoteVolume], the outcome depends on the other field. If no field of the
    body is one on which [float] raises (each is missing or a number), the
    status is "listed", a missing price is rendered as $0.00000000 and a
    missing volume as $0.00. If the other field is one on which [float]
    raises, the status is the data error, with price and volume ["N/A"]. *)
Theorem C9_missing_ticker_fields_default_to_zero (coin_symbol : string)
    (pairs : gset string) (data : ticker_body) :
  upper coin_symbol +:+ "USDT" ∈ pairs ->
  ticker (upper coin_symbol +:+ "USDT") = Ok data ->
  lastPrice data = Missing \/ quoteVolume data = Missing ->
  let r := ui_val (check_binance_data coin_symbol (PairsSet pairs) ticker) in
  (lastPrice data <> Unparsable -> quoteVolume data <> Unparsable ->
   status_binance r = STATUS_LISTED /\
   (lastPrice data = Missing -> price_binance r = "$0.00000000"%string) /\
   (quoteVolume data = Missing -> volume_binance r = "$0.00"%string)) /\
  (lastPrice data = Unparsable \/ quoteVolume data = Unparsable ->
   status_binance r = STATUS_DATA /\
   price_binance r = "N/A"%string /\ volume_binance r = "N/A"%string).
Proof.
  intros Hin Ht _ r. subst r. split.
  - intros Hp Hv.
    destruct (float_of_field (lastPrice data)) as [price|] eqn:Ep;
      [|by destruct (lastPrice data)].
    destruct (float_of_field (quoteVolume data)) as [volume_usdt|] eqn:Ev;
      [|by destruct (quoteVolume data)].
    rewrite (check_binance_data_listed _ _ _ _ _ Hin Ht Ep Ev). simpl.
    split; [reflexivity|]. split; intros E; rewrite E in *; simpl in *.
    + by injection Ep as <-.
    + by injection Ev as <-.
  - intros Hbad. by rewrite (check_binance_data_unparsable _ _ _ Hin Ht Hbad).
Qed.

End Binance.

Lemma C9_missing_ticker_fields_default_to_zero_witness :
  (let r := ui_val (check_binance_data "abc" (PairsSet pairs_abc)
                      (ticker_const (TickerBody Missing Missing))) in
   status_binance r = STATUS_LISTED /\
   price_binance r = "$0.00000000"%string /\
   volume_binance r = "$0.00"%string) /\
  (let r := ui_val (check_binance_data "abc" (PairsSet pairs_abc)
                      (ticker_const (TickerBody Missing Unparsable))) in
   status_binance r = STATUS_DATA /\
   price_binance r = "N/A"%string /\ volume_binance r = "N/A"%string).
Proof.
  split.
  - destruct (C9_missing_ticker_fields_default_to_zero
                (ticker_const (TickerBody Missing Missing)) "abc" pairs_abc
                (TickerBody Missing Missing)) as [Hok _].
    + by apply elem_of_singleton.
    + reflexivity.
    + by left.
    + destruct Hok as (Hs & Hp & Hv); [discriminate|discriminate|].
      split; [exact Hs|]. split; [by apply Hp|by apply Hv].
  - destruct (C9_missing_ticker_fields_default_to_zero
                (ticker_const (TickerBody Missing Unparsable)) "abc" pairs_abc
                (TickerBody Missing Unparsable)) as [_ Hbad].
    + by apply elem_of_singleton.
    + reflexivity.
    + by left.
    + apply Hbad. by right.
Defined.

(** The claim as worded fails on a body that lacks [lastPrice] and whose
    [quoteVolume] is a value on which [float] raises: the symbol is listed,
    the request succeeds, and the status is the data error, not "listed". *)
Lemma C9_counterexample :
  upper "abc" +:+ "USDT" ∈ pairs_abc /\
  ticker_const (TickerBody Missing Unparsable) (upper "abc" +:+ "USDT") =
    Ok (TickerBody Missing Unparsable) /\
  lastPrice (TickerBody Missing Unparsable) = Missing /\
  status_binance
    (ui_val (check_binance_data "abc" (PairsSet pairs_abc)
               (ticker_const (TickerBody Missing Unparsable))))
    <> STATUS_LISTED /\
  ui_val (check_binance_data "abc" (PairsSet pairs_abc)
            (ticker_const (TickerBody Missing Unparsable)))
    = BinanceResult STATUS_DATA "N/A" "N/A".
Proof.
  split; [by apply elem_of_singleton|]. split; [reflexivity|].
  split; [reflexivity|].
  rewrite (check_binance_data_unparsable
             (ticker_const (TickerBody Missing Unparsable)) "abc" pairs_abc
             (TickerBody Missing Unparsable));
    [|by apply elem_of_singleton|reflexivity|by right].
  split; [discriminate|reflexivity].
Qed.

(** * The rendering of prices *)

Section Rendering.

Lemma digit_char_is_digit (n : Z) : is_digit (digit_char n).
Proof.
  unfold is_digit, digit_char.
  pose proof (Z.mod_pos_bound n 10 eq_refl) as H.
  rewrite nat_ascii_embedding; lia.
Qed.

Lemma digits_fixed_length (d : nat) (n : Z) : length (digits_fixed d n) = d.
Proof.
  revert n. induction d as [|d IH]; intros n; simpl; [reflexivity|].
  rewrite length_app, IH. simpl. lia.
Qed.

Lemma digits_fixed_digits (d : nat) (n : Z) : Forall is_digit (digits_fixed d n).
Proof.
  revert n. induction d as [|d IH]; intros n; simpl; [constructor|].
  apply Forall_app. split; [apply IH|].
  constructor; [apply digit_char_is_digit|constructor].
Qed.

Lemma string_of_uint_digits (u : Decimal.uint) :
  Forall is_digit (list_ascii_of_string (NilEmpty.string_of_uint u)).
Proof.
  induction u as [|u IH|u IH|u IH|u IH|u IH|u IH|u IH|u IH|u IH|u IH]; simpl;
    [constructor|constructor; [unfold is_digit; vm_compute; lia|exact IH]..].
Qed.

Lemma int_digits_digits (n : Z) : Forall is_digit (int_digits n).
Proof.
  unfold int_digits, NilZero.string_of_uint.
  destruct (N.to_uint (Z.to_N n)) eqn:E; try (rewrite <- E; apply string_of_uint_digits).
  constructor; [unfold is_digit; vm_compute; lia|constructor].
Qed.

Lemma int_digits_nonempty (n : Z) : int_digits n <> [].
Proof.
  unfold int_digits, NilZero.string_of_uint.
  by destruct (N.to_uint (Z.to_N n)).
Qed.

Lemma commas_rev_thousands (n : nat) (l : list ascii) :
  (length l <= n)%nat -> l <> [] -> Forall is_digit l ->
  thousands (rev (commas_rev l)).
Proof.
  revert l. induction n as [|n IH]; intros l Hlen Hne Hd.
  - destruct l; [done|simpl in Hlen; lia].
  - destruct l as [|a [|b [|c [|d rest]]]]; [done|..].
    + apply thousands_first; [simpl; lia|exact Hd].
    + apply thousands_first; [simpl; lia|].
      apply Forall_rev in Hd. exact Hd.
    + apply thousands_first; [simpl; lia|].
      apply Forall_rev in Hd. exact Hd.
    + change (commas_rev (a :: b :: c :: d :: rest))
        with (a :: b :: c :: ","%char :: commas_rev (d :: rest)).
      change (a :: b :: c :: ","%char :: commas_rev (d :: rest))
        with ([a; b; c; ","%char] ++ commas_rev (d :: rest)).
      rewrite rev_app_distr.
      change (rev [a; b; c; ","%char]) with [","%char; c; b; a].
      apply List.Forall_cons_iff in Hd as [Ha Hd].
      apply List.Forall_cons_iff in Hd as [Hb Hd].
      apply List.Forall_cons_iff in Hd as [Hc Hd].
      apply thousands_more; try assumption.
      apply IH; [simpl in *; lia|discriminate|exact Hd].
Qed.

Lemma group_thousands_thousands (l : list ascii) :
  l <> [] -> Forall is_digit l -> thousands (group_thousands l).
Proof.
  intros Hne Hd. unfold group_thousands.
  apply (commas_rev_thousands (length (rev l))); [lia| |by apply Forall_rev].
  intros E. apply Hne. by rewrite <- (rev_involutive l), E.
Qed.

(** The commas are only separators: without them the digits are back. *)
Lemma commas_rev_ungroup (n : nat) (l : list ascii) :
  (length l <= n)%nat -> Forall is_digit l ->
  List.filter (fun c => negb (Ascii.eqb c ",")) (commas_rev l) = l.
Proof.
  assert (forall l, Forall is_digit l ->
            List.filter (fun c => negb (Ascii.eqb c ",")) l = l) as Hkeep.
  { induction 1 as [|c l' Hc _ IH]; simpl; [reflexivity|].
    destruct (Ascii.eqb_spec c ",") as [->|_]; simpl; [|by rewrite IH].
    unfold is_digit in Hc. vm_compute in Hc. lia. }
  revert l. induction n as [|n IH]; intros l Hlen Hd.
  - destruct l; [reflexivity|simpl in Hlen; lia].
  - destruct l as [|a [|b [|c [|d rest]]]]; try (by apply Hkeep).
    change (commas_rev (a :: b :: c :: d :: rest))
      with ([a; b; c] ++ ","%char :: commas_rev (d :: rest)).
    apply List.Forall_cons_iff in Hd as [Ha Hd].
    apply List.Forall_cons_iff in Hd as [Hb Hd].
    apply List.Forall_cons_iff in Hd as [Hc Hd].
    assert (Forall is_digit [a; b; c]) as H3
      by (apply List.Forall_cons_iff; split; [exact Ha|];
          apply List.Forall_cons_iff; split; [exact Hb|];
          apply List.Forall_cons_iff; split; [exact Hc|constructor]).
    rewrite List.filter_app, (Hkeep [a; b; c] H3).
    set (tail := commas_rev (d :: rest)). simpl. subst tail.
    rewrite IH; [reflexivity|simpl in *; lia|exact Hd].
Qed.

Lemma group_thousands_ungroup (l : list ascii) :
  Forall is_digit l ->
  List.filter (fun c => negb (Ascii.eqb c ",")) (group_thousands l) = l.
Proof.
  intros Hd. unfold group_thousands.
  rewrite <- (rev_involutive l) at 2. rewrite List.filter_rev.
  f_equal.
  apply (commas_rev_ungroup (length (rev l))); [lia|by apply Forall_rev].
Qed.

(** The rounding is to a nearest integer. *)
Lemma round_half_even_near (x : Q) :
  (Qabs (inject_Z (round_half_even x) - x) <= 1 # 2)%Q.
Proof.
  unfold round_half_even.
  pose proof (Qfloor_le x) as Hlo. pose proof (Qlt_floor x) as Hhi.
  rewrite inject_Z_plus in Hhi. change (inject_Z 1) with 1%Q in Hhi.
  apply Qabs_Qle_condition.
  destruct (x - inject_Z (Qfloor x) ?= 1 # 2)%Q eqn:E.
  - apply Qeq_alt in E. destruct (Z.even (Qfloor x));
      rewrite ?inject_Z_plus; change (inject_Z 1) with 1%Q; split; lra.
  - apply Qlt_alt in E. split; lra.
  - apply Qgt_alt in E. rewrite inject_Z_plus.
    change (inject_Z 1) with 1%Q. split; lra.
Qed.

Lemma format_f_rendered (d : nat) (x : Q) :
  rendered_with (S d) ("$" +:+ format_f (S d) x).
Proof.
  unfold rendered_with, format_f, format_f_chars.
  set (n := round_half_even _).
  exists (if Qlt_bool x 0 then ["-"%char] else []),
         (group_thousands (int_digits (n / 10 ^ Z.of_nat (S d)))),
         (digits_fixed (S d) (n mod 10 ^ Z.of_nat (S d))).
  split; [reflexivity|]. split; [destruct (Qlt_bool x 0); auto|].
  split; [apply group_thousands_thousands;
          [apply int_digits_nonempty|apply int_digits_digits]|].
  split; [apply digits_fixed_length|apply digits_fixed_digits].
Qed.

(** The price is rendered with 8 decimals below 0.01, with 2 otherwise. *)
Lemma format_price_rendered (price : Q) :
  ((price < 1 # 100)%Q ->
   format_price price = "$" +:+ format_f 8 price /\
   rendered_with 8 (format_price price)) /\
  (~ (price < 1 # 100)%Q ->
   format_price price = "$" +:+ format_f 2 price /\
   rendered_with 2 (format_price price)).
Proof.
  unfold format_price. split; intros H.
  - apply Qlt_bool_iff in H. rewrite H. split; [reflexivity|apply format_f_rendered].
  - destruct (Qlt_bool price (1 # 100)) eqn:E.
    + by apply Qlt_bool_iff in E.
    + split; [reflexivity|apply format_f_rendered].
Qed.

(** C6. For a ticker price that was fetched (the symbol is listed, the
    request succeeded and both fields became numbers), [price_binance] is
    the price in the [,.8f] format when it is strictly below 0.01 and in the
    [,.2f] format otherwise, after a dollar sign: an integer part with
    thousands separators, a point, and 8 respectively 2 decimal digits.
    So 0.005 is rendered as $0.00500000 and 1234.5 as $1,234.50. *)
Theorem C6_price_rendering (ticker : string -> response ticker_body)
    (coin_symbol : string) (pairs : gset string) (data : ticker_body)
    (price volume_usdt : Q) :
  upper coin_symbol +:+ "USDT" ∈ pairs ->
  ticker (upper coin_symbol +:+ "USDT") = Ok data ->
  float_of_field (lastPrice data) = Some price ->
  float_of_field (quoteVolume data) = Some volume_usdt ->
  let s := price_binance
             (ui_val (check_binance_data coin_symbol (PairsSet pairs) ticker)) in
  ((price < 1 # 100)%Q ->
   s = "$" +:+ format_f 8 price /\ rendered_with 8 s) /\
  (~ (price < 1 # 100)%Q ->
   s = "$" +:+ format_f 2 price /\ rendered_with 2 s) /\
  format_price 0.005 = "$0.00500000"%string /\
  format_price 1234.5 = "$1,234.50"%string.
Proof.
  intros Hin Ht Hp Hv.
  rewrite (check_binance_data_listed _ _ _ _ _ _ Hin Ht Hp Hv). simpl.
  destruct (format_price_rendered price) as [Hlo Hhi].
  split; [exact Hlo|]. split; [exact Hhi|]. split; reflexivity.
Qed.

Lemma C6_price_rendering_witness :
  price_binance
    (ui_val (check_binance_data "abc" (PairsSet pairs_abc)
               (ticker_const (TickerBody (Number 0.005) (Number 1234.5)))))
    = "$0.00500000"%string /\
  price_binance
    (ui_val (check_binance_data "abc" (PairsSet pairs_abc)
               (ticker_const (TickerBody (Number 1234.5) (Number 0.005)))))
    = "$1,234.50"%string.
Proof.
  split.
  - destruct (C6_price_rendering
                (ticker_const (TickerBody (Number 0.005) (Number 1234.5)))
                "abc" pairs_abc (TickerBody (Number 0.005) (Number 1234.5))
                0.005%Q 1234.5%Q) as ([H _]%(fun f => f eq_refl) & _);
      [by apply elem_of_singleton|reflexivity..|].
    rewrite H. reflexivity.
  - destruct (C6_price_rendering
                (ticker_const (TickerBody (Number 1234.5) (Number 0.005)))
                "abc" pairs_abc (TickerBody (Number 1234.5) (Number 0.005))
                1234.5%Q 0.005%Q) as (_ & H & _);
      [by apply elem_of_singleton|reflexivity..|].
    destruct H as [H _]; [intros Hlt; discriminate Hlt|].
    rewrite H. reflexivity.
Defined.

End Rendering.

(** * The news normalisation *)

Section News.

Variable search : string -> nat -> response search_body.

(** With a key and a coin name the function asks once and normalises. *)
Lemma get_brave_search_news_ok (coin_name b_api_key : string) (count : nat)
    (data : search_body) :
  b_api_key <> ""%string -> coin_name <> ""%string ->
  search (coin_name +:+ " coin news") count = Ok data ->
  get_brave_search_news coin_name b_api_key count search =
  ([SearchRequest (coin_name +:+ " coin news") count],
   normalize_results coin_name data).
Proof.
  intros Hkey Hname Hs. unfold get_brave_search_news.
  destruct (String.eqb_spec b_api_key ""); [done|].
  destruct (String.eqb_spec coin_name ""); [done|].
  by rewrite Hs.
Qed.

(** The normalisation maps the chosen collection, item by item. *)
Lemma normalize_results_chosen (coin_name : string) (data : search_body) :
  normalize_results coin_name data =
  match chosen_results data with
  | [] => NewsMessage ("Nenhuma notícia ou resultado web relevante encontrado para "
                       +:+ coin_name +:+ " com os filtros atuais.")
  | (_ :: _) as l => NewsList (map process_item l)
  end.
Proof.
  unfold normalize_results, chosen_results.
  destruct (results_of (news data)) as [|i l]; [|reflexivity].
  by destruct (results_of (web data)).
Qed.

Lemma process_item_snippet (item : search_item) :
  item_snippet (process_item item) =
  match description item, snippet item with
  | Some d, _ => d
  | None, Some s => s
  | None, None => "N/A"%string
  end.
Proof. unfold process_item. simpl. by destruct (description item), (snippet item). Qed.

Lemma process_item_source (item : search_item) :
  item_source (process_item item) =
  match source item, meta_url item with
  | Some s, _ => s
  | None, Some m => get_or (hostname m) "N/A"%string
  | None, None => "N/A"%string
  end.
Proof. unfold process_item. simpl. by destruct (source item), (meta_url item). Qed.

(** C7. For every parsed response of the search API: the items come from
    the "news" results when these are not empty; they come from the "web"
    results exactly when the "news" results are empty or absent (and the
    "web" results are not empty); each item takes its snippet from
    [description], else from [snippet], and its source from [source], else
    from the host name of [meta_url]; when both collections are empty the
    outcome is the "no results" message, not an error. A response with only
    "web" results gives those results, mapped. *)
Theorem C7_news_then_web (coin_name b_api_key : string) (count : nat)
    (data : search_body) :
  b_api_key <> ""%string -> coin_name <> ""%string ->
  search (coin_name +:+ " coin news") count = Ok data ->
  let r := ui_val (get_brave_search_news coin_name b_api_key count search) in
  (results_of (news data) <> [] ->
   r = NewsList (map process_item (results_of (news data)))) /\
  (results_of (news data) = [] -> results_of (web data) <> [] ->
   r = NewsList (map process_item (results_of (web data)))) /\
  (results_of (news data) = [] -> results_of (web data) = [] ->
   exists message, r = NewsMessage message) /\
  (forall item,
     item_snippet (process_item item) =
       get_or (description item) (get_or (snippet item) "N/A"%string) /\
     item_source (process_item item) =
       get_or (source item)
         (get_or (hostname (get_or (meta_url item) (MetaUrl None))) "N/A"%string)) /\
  normalize_results coin_name body_web_only =
    NewsList [process_item web_item_1; process_item web_item_2].
Proof.
  intros Hkey Hname Hs.
  rewrite (get_brave_search_news_ok _ _ _ _ Hkey Hname Hs). simpl.
  rewrite normalize_results_chosen. unfold chosen_results.
  split; [|split; [|split; [|split]]].
  - destruct (results_of (news data)); done.
  - intros ->. destruct (results_of (web data)); done.
  - intros -> ->. eauto.
  - intros item. split; reflexivity.
  - reflexivity.
Qed.

(** C8, as the code has it. The function passes [count] to the search
    API and does not cut the answer: the returned sequence has exactly as
    many items as the collection it was read from, so it has at most [count]
    items whenever that collection of the response has at most [count]
    results. *)
Theorem C8_length_is_that_of_the_response (coin_name b_api_key : string)
    (count : nat) (data : search_body) (items : list news_item) :
  b_api_key <> ""%string -> coin_name <> ""%string ->
  search (coin_name +:+ " coin news") count = Ok data ->
  ui_val (get_brave_search_news coin_name b_api_key count search) = NewsList items ->
  length items = length (chosen_results data) /\
  ((length (chosen_results data) <= count)%nat -> (length items <= count)%nat).
Proof.
  intros Hkey Hname Hs.
  rewrite (get_brave_search_news_ok _ _ _ _ Hkey Hname Hs). simpl.
  rewrite normalize_results_chosen.
  destruct (chosen_results data) as [|i l]; [discriminate|].
  intros [= <-]. simpl. rewrite length_map. split; [reflexivity|auto].
Qed.

End News.

Lemma C7_news_then_web_witness :
  ui_val (get_brave_search_news "Bitcoin" "key" DEFAULT_COUNT
            (search_const body_web_only)) =
  NewsList [NewsItem "Bitcoin rallies" "https://example.org/1" "BTC is up" "example.org";
            NewsItem "Markets today" "https://example.org/2" "A summary" "Example News"].
Proof.
  destruct (C7_news_then_web (search_const body_web_only) "Bitcoin" "key"
              DEFAULT_COUNT body_web_only) as (_ & Hweb & _);
    [discriminate|discriminate|reflexivity|].
  rewrite Hweb; [reflexivity|reflexivity|discriminate].
Defined.

Lemma C8_length_is_that_of_the_response_witness :
  length [process_item web_item_1; process_item web_item_2] = 2%nat /\
  (length [process_item web_item_1; process_item web_item_2] <= DEFAULT_COUNT)%nat.
Proof.
  destruct (C8_length_is_that_of_the_response (search_const body_web_only)
              "Bitcoin" "key" DEFAULT_COUNT body_web_only
              [process_item web_item_1; process_item web_item_2])
    as [Hlen Hle]; [discriminate|discriminate|reflexivity|reflexivity|].
  split; [exact Hlen|]. apply Hle. vm_compute. lia.
Defined.

(** The claim as worded fails when the API answers with more results than
    asked for: four "news" results and [count] 3 give four items. *)
Lemma C8_counterexample :
  exists items,
    ui_val (get_brave_search_news "Bitcoin" "key" DEFAULT_COUNT
              (search_const body_four_news)) = NewsList items /\
    ~ (length items <= DEFAULT_COUNT)%nat.
Proof.
  eexists. split; [reflexivity|]. vm_compute. lia.
Qed.

(** * More on the ranking *)

Section RankingMore.

Local Open Scope Q_scope.

(** *** The sort is stable *)

Lemma insert_desc_same_change (k : Q) (x : coin) (l : list coin) :
  List.filter (same_change k) (insert_desc x l) =
  List.filter (same_change k) (x :: l).
Proof.
  induction l as [|y l IH]; [reflexivity|]. simpl insert_desc.
  destruct (Qle_bool (change_key y) (change_key x)) eqn:E; [reflexivity|].
  change (List.filter (same_change k) (y :: insert_desc x l))
    with (if same_change k y
          then y :: List.filter (same_change k) (insert_desc x l)
          else List.filter (same_change k) (insert_desc x l)).
  rewrite IH. simpl. unfold same_change.
  destruct (Qeq_bool (change_key y) k) eqn:Ey; [|reflexivity].
  destruct (Qeq_bool (change_key x) k) eqn:Ex; [|reflexivity].
  apply Qeq_bool_iff in Ey, Ex. exfalso.
  assert (Qle_bool (change_key y) (change_key x) = true) as E'
    by (apply Qle_bool_iff; rewrite Ey, Ex; apply Qle_refl).
  congruence.
Qed.

(** Coins with the same change leave the sort in the order they entered. *)
Theorem sorted_desc_stable (k : Q) (l : list coin) :
  List.filter (same_change k) (sorted_desc l) = List.filter (same_change k) l.
Proof.
  induction l as [|x l IH]; [reflexivity|]. simpl sorted_desc.
  rewrite insert_desc_same_change. simpl. by rewrite IH.
Qed.

(** *** What the truncation keeps and what it cuts *)

Lemma StronglySorted_firstn_skipn {A} (R : A -> A -> Prop) (n : nat)
    (l : list A) (x y : A) :
  StronglySorted R l -> In x (firstn n l) -> In y (skipn n l) -> R x y.
Proof.
  intros Hs. revert n. induction Hs as [|a l Hs IH Ha]; intros n Hx Hy.
  - by rewrite firstn_nil in Hx.
  - destruct n as [|n]; [done|]. simpl in Hx, Hy. destruct Hx as [->|Hx].
    + rewrite List.Forall_forall in Ha. apply Ha.
      rewrite <- (firstn_skipn n l). apply in_or_app. by right.
    + by apply (IH n).
Qed.

(** A qualifying coin that is cut has a change no higher than that of any
    coin that is kept. *)
Theorem top_coins_dominate (all_coins_data : list coin) (c d : coin) :
  In c (top_coins all_coins_data) ->
  In d (filtered_by_volume all_coins_data) ->
  ~ In d (top_coins all_coins_data) ->
  change_key d <= change_key c.
Proof.
  unfold top_coins. intros Hc Hd Hnd.
  apply (StronglySorted_firstn_skipn change_ge 10 (sorted_coins all_coins_data));
    [apply sorted_desc_sorted|exact Hc|].
  apply sorted_coins_In in Hd.
  rewrite <- (firstn_skipn 10 (sorted_coins all_coins_data)) in Hd.
  apply in_app_or in Hd as [Hd|Hd]; [done|exact Hd].
Qed.

Lemma top_coins_dominate_witness :
  change_key (fallen "f11") <= change_key (fallen "f01").
Proof.
  apply (top_coins_dominate eleven_fallen (fallen "f01") (fallen "f11")).
  - vm_compute. tauto.
  - vm_compute. tauto.
  - vm_compute. intros H.
    repeat (destruct H as [H|H]; [discriminate H|]). exact H.
Defined.

(** The ranked list has as many coins as qualify, up to 10, and when at
    most 10 qualify it holds each of them once. *)
Theorem top_coins_complete (all_coins_data : list coin) :
  length (top_coins all_coins_data) =
    Nat.min 10 (length (filtered_by_volume all_coins_data)) /\
  Permutation (sorted_coins all_coins_data) (filtered_by_volume all_coins_data) /\
  ((length (filtered_by_volume all_coins_data) <= 10)%nat ->
   Permutation (top_coins all_coins_data) (filtered_by_volume all_coins_data)).
Proof.
  pose proof (sorted_desc_perm (filtered_by_volume all_coins_data)) as Hp.
  fold (sorted_coins all_coins_data) in Hp.
  split; [|split; [exact Hp|]].
  - unfold top_coins. by rewrite length_firstn, (Permutation_length Hp).
  - intros Hle. unfold top_coins. rewrite firstn_all2; [exact Hp|].
    by rewrite (Permutation_length Hp).
Qed.

(** *** [None] exactly when nothing qualifies *)

Lemma sorted_coins_nil (all : list coin) :
  sorted_coins all = [] <-> filtered_by_volume all = [].
Proof.
  pose proof (sorted_desc_perm (filtered_by_volume all)) as Hp.
  fold (sorted_coins all) in Hp. split; intros E; rewrite E in Hp.
  - by apply Permutation_nil.
  - by apply Permutation_nil, Permutation_sym.
Qed.

(** The ranking step returns [None] exactly when no snapshot qualifies, and
    otherwise a list of 1 to 10 coins: never the empty list. *)
Theorem rank_collected_None_iff (all_coins_data : list coin) :
  (ui_val (rank_collected all_coins_data) = None <->
   filtered_by_volume all_coins_data = []) /\
  (forall out, ui_val (rank_collected all_coins_data) = Some out ->
     out = top_coins all_coins_data /\ (1 <= length out <= 10)%nat).
Proof.
  split.
  - rewrite <- sorted_coins_nil. unfold rank_collected.
    destruct all_coins_data as [|c l]; [by split|].
    destruct (sorted_coins (c :: l)); by split.
  - intros out [-> Hne]%rank_collected_Some.
    split; [reflexivity|]. destruct (top_coins_ranked all_coins_data) as [Hlen _].
    destruct (top_coins all_coins_data); [done|simpl in *; lia].
Qed.

(** *** The order of the deduplicated list *)

Lemma dict_set_keys (k : string) (v : coin) (d : list (string * coin)) :
  map fst (dict_set k v d) =
  if in_dec string_dec k (map fst d) then map fst d else map fst d ++ [k].
Proof.
  induction d as [|[k0 v0] d IH]; simpl; [reflexivity|].
  destruct (String.eqb_spec k k0) as [->|Hne]; simpl.
  - destruct (string_dec k0 k0); [reflexivity|done].
  - rewrite IH. destruct (string_dec k0 k) as [E|E]; [congruence|].
    by destruct (in_dec string_dec k (map fst d)).
Qed.

Lemma first_occurrences_snoc (ids : list string) (k : string) :
  first_occurrences (ids ++ [k]) =
  if in_dec string_dec k (first_occurrences ids) then first_occurrences ids
  else first_occurrences ids ++ [k].
Proof.
  unfold first_occurrences. rewrite rev_unit. simpl.
  destruct (in_dec string_dec k (rev ids)) as [Hin|Hnin];
    destruct (in_dec string_dec k (rev (nodup string_dec (rev ids))))
      as [Hin'|Hnin']; try reflexivity; exfalso.
  - apply Hnin'. rewrite <- in_rev. by apply nodup_In.
  - apply Hnin. rewrite <- in_rev in Hin'. by apply nodup_In in Hin'.
Qed.

Lemma keyed_values_ids (d : list (string * coin)) :
  keyed d -> map coin_id (map snd d) = map fst d.
Proof.
  unfold keyed. induction 1 as [|[k v] d Hk _ IH]; simpl; [reflexivity|].
  simpl in Hk. by rewrite Hk, IH.
Qed.

(** The deduplicated list is in the order in which the identifiers first
    occur in the input: a later record replaces the value, not the place. *)
Theorem unique_coins_data_order (all_coins_data : list coin) :
  map coin_id (unique_coins_data all_coins_data) =
  first_occurrences (map coin_id all_coins_data).
Proof.
  unfold unique_coins_data.
  rewrite keyed_values_ids by apply unique_coins_map_inv.
  induction all_coins_data as [|c l IH] using rev_ind; [reflexivity|].
  rewrite unique_coins_map_snoc, dict_set_keys, map_app, IH. simpl.
  by rewrite first_occurrences_snoc.
Qed.

(** *** Ranking a ranked list *)

Lemma dict_set_fresh (k : string) (v : coin) (d : list (string * coin)) :
  ~ In k (map fst d) -> dict_set k v d = d ++ [(k, v)].
Proof.
  induction d as [|[k0 v0] d IH]; simpl; [reflexivity|]. intros Hk.
  destruct (String.eqb_spec k k0) as [->|_]; [tauto|].
  rewrite IH; [reflexivity|tauto].
Qed.

Lemma unique_coins_data_NoDup_id (l : list coin) :
  List.NoDup (map coin_id l) -> unique_coins_data l = l.
Proof.
  unfold unique_coins_data. intros Hnd.
  enough (unique_coins_map l = map (fun c => (coin_id c, c)) l) as ->
    by (rewrite map_map; apply map_id).
  induction l as [|c l IH] using rev_ind; [reflexivity|].
  rewrite map_app in Hnd. apply NoDup_ListNoDup, NoDup_app in Hnd as (Hl & Hc & _).
  rewrite unique_coins_map_snoc, IH by by apply NoDup_ListNoDup.
  rewrite dict_set_fresh, map_app; [reflexivity|].
  rewrite map_map. simpl. intros Hin. apply (Hc (coin_id c)).
  - by apply list_elem_of_In.
  - by apply list_elem_of_singleton.
Qed.

Lemma filter_Forall_id {A} (f : A -> bool) (l : list A) :
  Forall (fun x => f x = true) l -> List.filter f l = l.
Proof.
  induction 1 as [|x l Hx _ IH]; simpl; [reflexivity|]. by rewrite Hx, IH.
Qed.

Lemma sorted_desc_sorted_id (l : list coin) :
  StronglySorted change_ge l -> sorted_desc l = l.
Proof.
  induction 1 as [|x l _ IH Hx]; simpl; [reflexivity|]. rewrite IH.
  destruct l as [|y l]; [reflexivity|]. simpl.
  apply List.Forall_cons_iff in Hx as [Hy _].
  apply Qle_bool_iff in Hy. by rewrite Hy.
Qed.

Lemma firstn_NoDup {A} (n : nat) (l : list A) :
  List.NoDup l -> List.NoDup (firstn n l).
Proof.
  intros Hnd. revert n. induction Hnd as [|x l Hx _ IH]; intros [|n]; simpl;
    try constructor; [|apply IH].
  intros Hin. by apply Hx, (firstn_In n).
Qed.

(** Ranking the ranked list again changes nothing. *)
Theorem top_coins_idempotent (all_coins_data : list coin) :
  top_coins (top_coins all_coins_data) = top_coins all_coins_data.
Proof.
  destruct (top_coins_ranked all_coins_data) as (Hlen & Hsorted & Hq).
  set (out := top_coins all_coins_data) in *.
  assert (List.NoDup (map coin_id out)) as Hnd.
  { unfold out, top_coins. rewrite <- firstn_map.
    apply firstn_NoDup, sorted_coins_NoDup. }
  unfold top_coins at 1, sorted_coins, filtered_by_volume, valid_coins.
  rewrite (unique_coins_data_NoDup_id out Hnd).
  rewrite !filter_Forall_id.
  - rewrite sorted_desc_sorted_id by exact Hsorted. by apply firstn_all2.
  - eapply List.Forall_impl; [|exact Hq]. by intros c [? _]%qualifies_iff.
  - rewrite filter_Forall_id.
    + eapply List.Forall_impl; [|exact Hq]. by intros c [_ ?]%qualifies_iff.
    + eapply List.Forall_impl; [|exact Hq]. by intros c [? _]%qualifies_iff.
Qed.

End RankingMore.

(** * More on the page loop *)

Section PagesMore.

Variable api : nat -> response (list coin).

Lemma fetch_pages_None_log (pages : list nat) (acc : list coin) :
  ui_val (fetch_pages api pages acc) = None ->
  ui_log (fetch_pages api pages acc) <> [].
Proof.
  revert acc. induction pages as [|p rest IH]; intros acc; [discriminate|].
  simpl. destruct (api p) as [body|code text| |].
  - apply IH.
  - destruct (code =? 401); [discriminate|].
    destruct (code =? 429); destruct acc; discriminate.
  - destruct acc; discriminate.
  - destruct acc; discriminate.
Qed.

(** No silent failure: whenever [get_top_gainers] returns [None], it has
    shown a message. *)
Theorem get_top_gainers_None_has_message (key : string) :
  ui_val (get_top_gainers key api) = None ->
  ui_log (get_top_gainers key api) <> [].
Proof.
  unfold get_top_gainers. destruct (String.eqb key ""); [discriminate|].
  pose proof (fetch_pages_None_log [1%nat; 2%nat] []) as Hf.
  destruct (fetch_pages api [1%nat; 2%nat] []) as [w [all|]]; simpl in *.
  - assert (ui_val (rank_collected all) = None ->
            ui_log (rank_collected all) <> []) as Hr.
    { unfold rank_collected. destruct all as [|c l]; [discriminate|].
      destruct (sorted_coins (c :: l)); discriminate. }
    destruct (rank_collected all) as [w2 b]. simpl in *.
    intros Hb Hw. apply app_eq_nil in Hw as [_ ->]. by apply Hr.
  - intros _. destruct w; [by apply Hf|discriminate].
Qed.

(** When every page is answered, the pages are ranked together, in page
    order, and the only message can be that of the ranking step. *)
Theorem get_top_gainers_all_pages (key : string) (page1 page2 : list coin) :
  key <> ""%string -> api 1%nat = Ok page1 -> api 2%nat = Ok page2 ->
  get_top_gainers key api = rank_collected (page1 ++ page2).
Proof.
  intros Hkey H1 H2. unfold get_top_gainers.
  destruct (String.eqb_spec key ""); [done|].
  rewrite (fetch_pages_ok _ _ _ _ _ H1), (fetch_pages_ok _ _ _ _ _ H2).
  simpl. by destruct (rank_collected (page1 ++ page2)).
Qed.

(** A failure on the first page ends the call with [None] and one message;
    the second page has no part in the result. *)
Theorem get_top_gainers_first_page_fails (key : string)
    (api' : nat -> response (list coin)) :
  key <> ""%string -> is_failure (api 1%nat) -> api' 1%nat = api 1%nat ->
  ui_val (get_top_gainers key api) = None /\
  length (ui_log (get_top_gainers key api)) = 1%nat /\
  get_top_gainers key api' = get_top_gainers key api.
Proof.
  intros Hkey Hfail Hsame. unfold get_top_gainers.
  destruct (String.eqb_spec key ""); [done|]. simpl. rewrite Hsame.
  destruct (api 1%nat) as [body|code text| |]; [done|..].
  - destruct (code =? 401); [done|]. by destruct (code =? 429).
  - done.
  - done.
Qed.

End PagesMore.

Lemma get_top_gainers_None_has_message_witness :
  ui_log (get_top_gainers "key" (fun _ => RequestException)) <> [].
Proof.
  apply (get_top_gainers_None_has_message (fun _ => RequestException) "key").
  reflexivity.
Defined.

Lemma get_top_gainers_all_pages_witness :
  get_top_gainers "key" (fun p => Ok [if Nat.eqb p 1 then coin_x3 else coin_x7]) =
  rank_collected ([coin_x3] ++ [coin_x7]).
Proof.
  apply (get_top_gainers_all_pages
           (fun p => Ok [if Nat.eqb p 1 then coin_x3 else coin_x7]) "key");
    [discriminate|reflexivity|reflexivity].
Defined.

Lemma get_top_gainers_first_page_fails_witness :
  ui_val (get_top_gainers "key" (fun _ => HTTPError 429 "")) = None /\
  length (ui_log (get_top_gainers "key" (fun _ => HTTPError 429 ""))) = 1%nat /\
  get_top_gainers "key" (fun p => if Nat.eqb p 1 then HTTPError 429 "" else Ok [coin_a])
    = get_top_gainers "key" (fun _ => HTTPError 429 "").
Proof.
  apply (get_top_gainers_first_page_fails (fun _ => HTTPError 429 "") "key"
           (fun p => if Nat.eqb p 1 then HTTPError 429 "" else Ok [coin_a]));
    [discriminate|exact I|reflexivity].
Defined.

(** * More on the exchange check *)

Section BinanceMore.

Variable ticker : string -> response ticker_body.

Lemma http_status_message_not_listed (coin_symbol : string) (status_code : Z)
    (text : string) :
  http_status_message coin_symbol status_code text <> STATUS_LISTED.
Proof.
  unfold http_status_message, STATUS_LISTED.
  destruct (_ && _); [discriminate|]. destruct (_ =? 404); discriminate.
Qed.

(** The check asks the ticker endpoint at most once, for the upper-cased
    symbol followed by USDT, and only when the pair set holds it. *)
Theorem check_binance_data_requests (coin_symbol : string)
    (tradable_usdt_pairs : pairs_arg) :
  ticker_requests (ui_log (check_binance_data coin_symbol tradable_usdt_pairs ticker)) =
  match tradable_usdt_pairs with
  | PairsSet pairs =>
      if decide (upper coin_symbol +:+ "USDT" ∈ pairs)
      then [upper coin_symbol +:+ "USDT"] else []
  | _ => []
  end.
Proof.
  unfold check_binance_data.
  destruct tradable_usdt_pairs as [| |pairs]; [reflexivity..|].
  destruct (decide (pairs = ∅)) as [->|Hne].
  { rewrite decide_False by set_solver. reflexivity. }
  destruct (decide (upper coin_symbol +:+ "USDT" ∉ pairs)) as [Hnot|Hin].
  { by rewrite decide_False. }
  rewrite decide_True by (destruct (decide (upper coin_symbol +:+ "USDT" ∈ pairs)); tauto).
  destruct (ticker _) as [data|code text| |]; try reflexivity.
  by destruct (float_of_field (lastPrice data)), (float_of_field (quoteVolume data)).
Qed.

(** The status is "listed" exactly when the symbol is in the pair set, the
    ticker request succeeds and both fields are numbers; in every other
    case price and volume are ["N/A"]. *)
Theorem check_binance_data_listed_iff (coin_symbol : string)
    (tradable_usdt_pairs : pairs_arg) :
  let r := ui_val (check_binance_data coin_symbol tradable_usdt_pairs ticker) in
  (status_binance r = STATUS_LISTED <->
   exists pairs data price volume_usdt,
     tradable_usdt_pairs = PairsSet pairs /\
     upper coin_symbol +:+ "USDT" ∈ pairs /\
     ticker (upper coin_symbol +:+ "USDT") = Ok data /\
     float_of_field (lastPrice data) = Some price /\
     float_of_field (quoteVolume data) = Some volume_usdt) /\
  (status_binance r <> STATUS_LISTED ->
   price_binance r = "N/A"%string /\ volume_binance r = "N/A"%string).
Proof.
  simpl. split.
  - split.
    + unfold check_binance_data.
      destruct tradable_usdt_pairs as [| |pairs]; [discriminate..|].
      destruct (decide (pairs = ∅)); [discriminate|].
      destruct (decide (upper coin_symbol +:+ "USDT" ∉ pairs)) as [|Hin];
        [discriminate|].
      destruct (ticker _) as [data|code text| |] eqn:Et; simpl;
        [|by intros ?%http_status_message_not_listed|discriminate..].
      destruct (float_of_field (lastPrice data)) as [price|] eqn:Ep;
        [|discriminate].
      destruct (float_of_field (quoteVolume data)) as [volume_usdt|] eqn:Ev;
        [|discriminate].
      intros _. exists pairs, data, price, volume_usdt.
      repeat split; try done.
      destruct (decide (upper coin_symbol +:+ "USDT" ∈ pairs)); tauto.
    + intros (pairs & data & price & volume_usdt & -> & Hin & Ht & Hp & Hv).
      by rewrite (check_binance_data_listed _ _ _ _ _ _ Hin Ht Hp Hv).
  - unfold check_binance_data.
    destruct tradable_usdt_pairs as [| |pairs]; [done..|].
    destruct (decide (pairs = ∅)); [done|].
    destruct (decide (upper coin_symbol +:+ "USDT" ∉ pairs)); [done|].
    destruct (ticker _) as [data|code text| |]; simpl; try done.
    destruct (float_of_field (lastPrice data)); [|done].
    destruct (float_of_field (quoteVolume data)); done.
Qed.

(** *** Upper-casing *)

Lemma upper_ascii_idempotent (c : ascii) :
  upper_ascii (upper_ascii c) = upper_ascii c.
Proof. destruct c as [[] [] [] [] [] [] [] []]; reflexivity. Qed.

Lemma upper_idempotent (s : string) : upper (upper s) = upper s.
Proof.
  induction s as [|c s IH]; simpl; [reflexivity|].
  by rewrite upper_ascii_idempotent, IH.
Qed.

Lemma http_status_message_upper (coin_symbol : string) (status_code : Z)
    (text : string) :
  http_status_message (upper coin_symbol) status_code text =
  http_status_message coin_symbol status_code text.
Proof. unfold http_status_message. by rewrite upper_idempotent. Qed.

(** The check does not depend on the case of the symbol it is given: the
    caller's upper-casing and the function's own agree. *)
Theorem check_binance_data_upper (coin_symbol : string)
    (tradable_usdt_pairs : pairs_arg) :
  check_binance_data (upper coin_symbol) tradable_usdt_pairs ticker =
  check_binance_data coin_symbol tradable_usdt_pairs ticker.
Proof.
  unfold check_binance_data. rewrite upper_idempotent.
  destruct tradable_usdt_pairs as [| |pairs]; [reflexivity..|].
  destruct (decide (pairs = ∅)); [reflexivity|].
  destruct (decide (_ ∉ pairs)); [reflexivity|].
  destruct (ticker _) as [data|code text| |]; try reflexivity.
  by rewrite http_status_message_upper.
Qed.

(** The volume of a listed coin is rendered with thousands separators and
    2 decimals, whatever its size. *)
Theorem check_binance_data_volume_rendered (coin_symbol : string)
    (pairs : gset string) (data : ticker_body) (price volume_usdt : Q) :
  upper coin_symbol +:+ "USDT" ∈ pairs ->
  ticker (upper coin_symbol +:+ "USDT") = Ok data ->
  float_of_field (lastPrice data) = Some price ->
  float_of_field (quoteVolume data) = Some volume_usdt ->
  let s := volume_binance
             (ui_val (check_binance_data coin_symbol (PairsSet pairs) ticker)) in
  s = "$" +:+ format_f 2 volume_usdt /\ rendered_with 2 s.
Proof.
  intros Hin Ht Hp Hv.
  rewrite (check_binance_data_listed _ _ _ _ _ _ Hin Ht Hp Hv). simpl.
  split; [reflexivity|apply format_f_rendered].
Qed.

(** *** The loop over the ranked coins *)

Lemma ticker_requests_app (l1 l2 : list binance_event) :
  ticker_requests (l1 ++ l2) = ticker_requests l1 ++ ticker_requests l2.
Proof. unfold ticker_requests. apply flat_map_app. Qed.

Lemma check_coins_cons (c : coin) (rest : list coin) (pairs : pairs_arg) :
  check_coins (c :: rest) pairs ticker =
  (ui_log (check_binance_data (upper (symbol c)) pairs ticker) ++
   ui_log (check_coins rest pairs ticker),
   (upper (symbol c), ui_val (check_binance_data (upper (symbol c)) pairs ticker))
   :: ui_val (check_coins rest pairs ticker)).
Proof.
  simpl. destruct (check_binance_data _ _ _) as [w1 r].
  destruct (check_coins rest pairs ticker) as [w2 rows]. simpl.
  by rewrite app_nil_r.
Qed.

(** Each ranked coin gets its row, in rank order, with the result the
    check gives for that coin alone: a failed check does not touch the other
    rows. The loop asks the ticker endpoint at most once for each coin. *)
Theorem check_coins_rows (top_coins_data : list coin) (pairs : pairs_arg) :
  ui_val (check_coins top_coins_data pairs ticker) =
    map (fun c => (upper (symbol c),
                   ui_val (check_binance_data (upper (symbol c)) pairs ticker)))
        top_coins_data /\
  (length (ticker_requests (ui_log (check_coins top_coins_data pairs ticker)))
   <= length top_coins_data)%nat.
Proof.
  induction top_coins_data as [|c rest [IHv IHl]]; [split; [reflexivity|simpl; lia]|].
  rewrite check_coins_cons. simpl. split.
  - by rewrite IHv.
  - rewrite ticker_requests_app, length_app.
    assert (length (ticker_requests
              (ui_log (check_binance_data (upper (symbol c)) pairs ticker))) <= 1)%nat.
    { destruct pairs as [| |s]; [simpl; lia..|].
      unfold check_binance_data.
      destruct (decide (s = ∅)); [simpl; lia|].
      destruct (decide (_ ∉ s)); [simpl; lia|].
      destruct (ticker _) as [data|code text| |]; simpl; try lia.
      destruct (float_of_field (lastPrice data)), (float_of_field (quoteVolume data));
        simpl; lia. }
    lia.
Qed.

End BinanceMore.

Lemma check_binance_data_volume_rendered_witness :
  volume_binance
    (ui_val (check_binance_data "abc" (PairsSet pairs_abc)
               (ticker_const (TickerBody (Number 0.005) (Number 1234567.891)))))
    = "$1,234,567.89"%string.
Proof.
  destruct (check_binance_data_volume_rendered
              (ticker_const (TickerBody (Number 0.005) (Number 1234567.891)))
              "abc" pairs_abc (TickerBody (Number 0.005) (Number 1234567.891))
              0.005%Q 1234567.891%Q) as [H _];
    [by apply elem_of_singleton|reflexivity..|].
  rewrite H. reflexivity.
Defined.

(** * The pair set of the session *)

Section Pairs.

Lemma usdt_trading_elem (l : list symbol_info) (pairs : gset string) :
  usdt_trading l = Some pairs ->
  forall sym, sym ∈ pairs <-> exists s, In s l /\ is_usdt_trading s sym.
Proof.
  revert pairs. induction l as [|s l IH]; intros pairs; simpl.
  - intros [= <-] sym. split; [by intros ?%not_elem_of_empty|by intros (? & [] & _)].
  - assert (forall pairs', usdt_trading l = Some pairs' ->
              (forall sym, ~ is_usdt_trading s sym) ->
              forall sym, sym ∈ pairs' <->
                exists s', (s = s' \/ In s' l) /\ is_usdt_trading s' sym) as Hskip.
    { intros pairs' Hl Hs sym. rewrite (IH _ Hl). split.
      - intros (s' & Hin & H). exists s'. split; [by right|exact H].
      - intros (s' & [<-|Hin] & H); [by destruct (Hs sym)|by exists s']. }
    unfold is_usdt_trading in *.
    destruct (quoteAsset s) as [quote|] eqn:Eq; [|discriminate].
    destruct (String.eqb_spec quote "USDT") as [->|Hq];
      [|intros Hl; apply (Hskip _ Hl); intros sym (_ & ? & _); congruence].
    destruct (status s) as [st|] eqn:Es; [|discriminate].
    destruct (String.eqb_spec st "TRADING") as [->|Hs];
      [|intros Hl; apply (Hskip _ Hl); intros sym (_ & _ & ?); congruence].
    destruct (info_symbol s) as [sym0|] eqn:Ei; [|discriminate].
    destruct (usdt_trading l) as [pairs'|]; [|discriminate].
    intros [= <-] sym. rewrite elem_of_union, elem_of_singleton, (IH _ eq_refl).
    split.
    + intros [->|(s' & Hin & H)].
      * exists s. split; [by left|by rewrite Ei, Eq, Es].
      * exists s'. split; [by right|exact H].
    + intros (s' & [<-|Hin] & Hi & H).
      * left. congruence.
      * right. by exists s'.
Qed.

Lemma usdt_trading_total (l : list symbol_info) :
  Forall (fun s => is_Some (info_symbol s) /\ is_Some (quoteAsset s) /\
                   is_Some (status s)) l ->
  is_Some (usdt_trading l).
Proof.
  induction 1 as [|s l ([sym Hi] & [quote Hq] & [st Hs]) _ [pairs IH]]; simpl;
    [eauto|].
  rewrite Hq, Hs, Hi, IH.
  destruct (String.eqb quote "USDT"), (String.eqb st "TRADING"); eauto.
Qed.

(** The first call of a session that gets a well-formed answer returns
    and stores exactly the symbols that trade against USDT. *)
Theorem pairs_are_usdt_trading (cell : pairs_cell) (l : list symbol_info) :
  (forall pairs, cell <> CellSet pairs) ->
  Forall (fun s => is_Some (info_symbol s) /\ is_Some (quoteAsset s) /\
                   is_Some (status s)) l ->
  exists pairs,
    get_binance_tradable_usdt_pairs cell (Ok (ExchangeInfo (Some l))) =
      ([ExchangeInfoRequest], (CellSet pairs, PairsSet pairs)) /\
    forall sym, sym ∈ pairs <-> exists s, In s l /\ is_usdt_trading s sym.
Proof.
  intros Hcell [pairs Hl]%usdt_trading_total. exists pairs.
  split; [|by apply usdt_trading_elem].
  unfold get_binance_tradable_usdt_pairs.
  destruct cell as [| |pairs0]; [| |by destruct (Hcell pairs0)];
    simpl; by rewrite Hl.
Qed.

(** The pair set is fetched at most once in a session: after any call the
    entry holds a set, the value returned is that set, and a further call
    returns it without a request, also when the first call failed and
    stored the empty set. *)
Theorem pairs_fetched_once (cell : pairs_cell) (exchange exchange' : response exchange_info) :
  exists pairs,
    ui_val (get_binance_tradable_usdt_pairs cell exchange) =
      (CellSet pairs, PairsSet pairs) /\
    get_binance_tradable_usdt_pairs (CellSet pairs) exchange' =
      ([], (CellSet pairs, PairsSet pairs)).
Proof.
  unfold get_binance_tradable_usdt_pairs.
  destruct cell as [| |pairs0]; [| |by exists pairs0];
    (destruct exchange as [data|code text| |]; [|by exists ∅..];
     destruct (symbols data) as [l|]; [|by exists ∅];
     destruct (usdt_trading l) as [pairs|]; [by exists pairs|by exists ∅]).
Qed.

(** When the exchange-info request of a fresh session fails, or its body
    cannot be read, the empty set is stored, and every coin is then reported
    as "exchange unavailable" without a ticker request. *)
Theorem pairs_failure_disables_checks (exchange : response exchange_info)
    (coin_symbol : string) (ticker : string -> response ticker_body) :
  is_failure exchange \/ (exists data, exchange = Ok data /\ symbols data = None) ->
  ui_val (get_binance_tradable_usdt_pairs CellAbsent exchange) =
    (CellSet ∅, PairsSet ∅) /\
  length (ui_log (get_binance_tradable_usdt_pairs CellAbsent exchange)) = 2%nat /\
  check_binance_data coin_symbol
    (snd (ui_val (get_binance_tradable_usdt_pairs CellAbsent exchange))) ticker =
    ([], BinanceResult STATUS_EXCHANGE_UNAVAILABLE "N/A" "N/A").
Proof.
  intros Hfail.
  assert (get_binance_tradable_usdt_pairs CellAbsent exchange =
          ([ExchangeInfoRequest; SidebarPairsError], (CellSet ∅, PairsSet ∅)) \/
          get_binance_tradable_usdt_pairs CellAbsent exchange =
          ([ExchangeInfoRequest; SidebarPairsUnexpected], (CellSet ∅, PairsSet ∅)))
    as [-> | ->].
  { destruct Hfail as [Hfail|(data & -> & Hs)].
    - destruct exchange as [data|code text| |]; [done|left|left|right]; reflexivity.
    - right. unfold get_binance_tradable_usdt_pairs. simpl. by rewrite Hs. }
  - split; [reflexivity|]. split; [reflexivity|]. apply check_binance_data_empty.
  - split; [reflexivity|]. split; [reflexivity|]. apply check_binance_data_empty.
Qed.

End Pairs.

Lemma pairs_are_usdt_trading_witness :
  exists pairs,
    get_binance_tradable_usdt_pairs CellNone (Ok exchange_two) =
      ([ExchangeInfoRequest], (CellSet pairs, PairsSet pairs)) /\
    forall sym, sym ∈ pairs <->
      exists s, In s (get_or (symbols exchange_two) []) /\ is_usdt_trading s sym.
Proof.
  apply (pairs_are_usdt_trading CellNone (get_or (symbols exchange_two) [])).
  - discriminate.
  - repeat constructor; eauto.
Defined.

Lemma pairs_failure_disables_checks_witness :
  check_binance_data "abc"
    (snd (ui_val (get_binance_tradable_usdt_pairs CellAbsent RequestException)))
    (ticker_const (TickerBody (Number 1) (Number 1))) =
  ([], BinanceResult STATUS_EXCHANGE_UNAVAILABLE "N/A" "N/A").
Proof.
  apply (pairs_failure_disables_checks RequestException "abc"
           (ticker_const (TickerBody (Number 1) (Number 1)))).
  left. exact I.
Defined.

(** * More on the news *)

Section NewsMore.

Variable search : string -> nat -> response search_body.

(** The log of one call: nothing, or the request, followed by at most one
    warning of the sidebar. *)
Lemma get_brave_search_news_log (coin_name b_api_key : string) (count : nat) :
  let log := ui_log (get_brave_search_news coin_name b_api_key count search) in
  (log = [] /\ (b_api_key = ""%string \/ coin_name = ""%string)) \/
  (b_api_key <> ""%string /\ coin_name <> ""%string /\
   (log = [SearchRequest (coin_name +:+ " coin news") count] \/
    exists e, log = [SearchRequest (coin_name +:+ " coin news") count; e] /\
              search_requests [e] = [])).
Proof.
  unfold get_brave_search_news.
  destruct (String.eqb_spec b_api_key "") as [->|Hkey]; [left; by split; [|left]|].
  destruct (String.eqb_spec coin_name "") as [->|Hname]; [left; by split; [|right]|].
  right. split; [exact Hkey|]. split; [exact Hname|].
  destruct (search _ count) as [data|code text| |]; simpl;
    [by left|right; eexists; by split..].
Qed.

(** One call sends at most one search request: none without a key or a
    coin name, otherwise one, for the coin name followed by " coin news" and
    with the count it was given. *)
Theorem get_brave_search_news_requests (coin_name b_api_key : string) (count : nat) :
  search_requests (ui_log (get_brave_search_news coin_name b_api_key count search)) =
  if String.eqb b_api_key "" || String.eqb coin_name "" then []
  else [(coin_name +:+ " coin news", count)].
Proof.
  destruct (get_brave_search_news_log coin_name b_api_key count)
    as [[-> [->| ->]]|(Hkey & Hname & Hlog)].
  - reflexivity.
  - by rewrite orb_true_r.
  - destruct (String.eqb_spec b_api_key ""); [done|].
    destruct (String.eqb_spec coin_name ""); [done|].
    destruct Hlog as [->|(e & -> & He)]; [reflexivity|].
    change (search_requests [SearchRequest (coin_name +:+ " coin news") count; e])
      with ((coin_name +:+ " coin news", count) :: search_requests [e]).
    by rewrite He.
Qed.

(** A list of items is returned only for an answered request and is never
    empty; a failed request gives an error, with the request and one warning
    of the sidebar in the log. *)
Theorem get_brave_search_news_outcome (coin_name b_api_key : string) (count : nat) :
  let m := get_brave_search_news coin_name b_api_key count search in
  (forall items, ui_val m = NewsList items ->
     items <> [] /\
     exists data, search (coin_name +:+ " coin news") count = Ok data) /\
  (b_api_key <> ""%string -> coin_name <> ""%string ->
   is_failure (search (coin_name +:+ " coin news") count) ->
   (exists error, ui_val m = NewsError error) /\ length (ui_log m) = 2%nat).
Proof.
  simpl. unfold get_brave_search_news. split.
  - intros items.
    destruct (String.eqb b_api_key ""); [discriminate|].
    destruct (String.eqb coin_name ""); [discriminate|].
    destruct (search _ count) as [data|code text| |]; simpl; [|discriminate..].
    rewrite normalize_results_chosen.
    destruct (chosen_results data); [discriminate|].
    intros [= <-]. split; [discriminate|by exists data].
  - intros Hkey Hname Hfail.
    destruct (String.eqb_spec b_api_key ""); [done|].
    destruct (String.eqb_spec coin_name ""); [done|].
    destruct (search _ count) as [data|code text| |]; simpl; [done|eauto..].
Qed.

End NewsMore.

(** * The news panel *)

Section Panel.

Variable brave_api_key : string.

Lemma news_for_row_cached (search : string -> nat -> response search_body)
    (name : string) (cache : gmap string news_result) (r : news_result) :
  cache !! name = Some r ->
  news_for_row name brave_api_key search cache = ([], (cache, r)).
Proof. unfold news_for_row. intros ->. by destruct r. Qed.

Lemma news_for_row_fresh (search : string -> nat -> response search_body)
    (name : string) (cache : gmap string news_result) :
  cache !! name = None ->
  news_for_row name brave_api_key search cache =
  fetch_and_cache name brave_api_key search cache.
Proof. unfold news_for_row. by intros ->. Qed.

(** A turn of the loop only adds to the cache, and the result it shows is
    the one the cache then holds. *)
Lemma news_for_row_cache (search : string -> nat -> response search_body)
    (name : string) (cache : gmap string news_result) :
  let out := ui_val (news_for_row name brave_api_key search cache) in
  cache ⊆ fst out /\ fst out !! name = Some (snd out).
Proof.
  simpl. destruct (cache !! name) as [r|] eqn:E.
  - by rewrite (news_for_row_cached _ _ _ _ E).
  - rewrite (news_for_row_fresh _ _ _ E). unfold fetch_and_cache.
    destruct (get_brave_search_news name brave_api_key 3 search) as [w r]. simpl.
    split; [by apply insert_subseteq|by apply lookup_insert_eq].
Qed.

Lemma news_for_rows_cons (search : string -> nat -> response search_body)
    (name : string) (rest : list string) (cache : gmap string news_result) :
  news_for_rows (name :: rest) brave_api_key search cache =
  let r := news_for_row name brave_api_key search cache in
  let rs := news_for_rows rest brave_api_key search (fst (ui_val r)) in
  (ui_log r ++ ui_log rs, (fst (ui_val rs), snd (ui_val r) :: snd (ui_val rs))).
Proof.
  simpl. destruct (news_for_row _ _ _ _) as [w1 [c1 r1]]. simpl.
  destruct (news_for_rows rest _ _ c1) as [w2 [c2 rs]]. simpl.
  by rewrite app_nil_r.
Qed.

Lemma news_for_rows_cache (search : string -> nat -> response search_body)
    (names : list string) (cache : gmap string news_result) :
  let out := ui_val (news_for_rows names brave_api_key search cache) in
  cache ⊆ fst out /\
  Forall2 (fun name r => fst out !! name = Some r) names (snd out).
Proof.
  revert cache. induction names as [|name rest IH]; intros cache.
  - simpl. by split.
  - rewrite news_for_rows_cons. simpl.
    destruct (news_for_row_cache search name cache) as [Hsub Hlook].
    specialize (IH (fst (ui_val (news_for_row name brave_api_key search cache)))).
    simpl in IH. destruct IH as [Hsub' Hall].
    split; [by etransitivity|]. constructor; [|exact Hall].
    by eapply lookup_weaken.
Qed.

(** Every row is shown a result, which the cache holds afterwards, and
    nothing that was cached before is replaced. *)
Theorem news_for_rows_fills_cache
    (search : string -> nat -> response search_body)
    (names : list string) (news_cache : gmap string news_result) :
  let out := ui_val (news_for_rows names brave_api_key search news_cache) in
  length (snd out) = length names /\
  Forall2 (fun name r => fst out !! name = Some r) names (snd out) /\
  (forall name r, news_cache !! name = Some r -> fst out !! name = Some r).
Proof.
  simpl. destruct (news_for_rows_cache search names news_cache) as [Hsub Hall].
  split; [symmetry; by eapply Forall2_length|]. split; [exact Hall|].
  intros name r Hr. by eapply lookup_weaken.
Qed.

Lemma news_for_rows_replay (search' : string -> nat -> response search_body)
    (names : list string) (rs : list news_result)
    (cache : gmap string news_result) :
  Forall2 (fun name r => cache !! name = Some r) names rs ->
  news_for_rows names brave_api_key search' cache = ([], (cache, rs)).
Proof.
  induction 1 as [|name r names rs Hr _ IH]; [reflexivity|].
  rewrite news_for_rows_cons, (news_for_row_cached _ _ _ _ Hr). simpl.
  by rewrite IH.
Qed.

(** Pressing the button again for the same rows sends no request and
    shows the same results, errors included: a result is asked for once and
    then taken from the cache. *)
Theorem news_for_rows_memoized
    (search search' : string -> nat -> response search_body)
    (names : list string) (news_cache : gmap string news_result) :
  let out := ui_val (news_for_rows names brave_api_key search news_cache) in
  news_for_rows names brave_api_key search' (fst out) = ([], out).
Proof.
  simpl. destruct (news_for_rows_cache search names news_cache) as [_ Hall].
  rewrite (news_for_rows_replay search' _ _ _ Hall).
  by destruct (ui_val _).
Qed.

Lemma paced_fetch (search : string -> nat -> response search_body)
    (name : string) (cache : gmap string news_result) (rest : list panel_event) :
  paced false (ui_log (fetch_and_cache name brave_api_key search cache) ++ rest) =
  paced false rest.
Proof.
  unfold fetch_and_cache.
  pose proof (get_brave_search_news_log search name brave_api_key 3) as Hlog.
  destruct (get_brave_search_news name brave_api_key 3 search) as [w r].
  simpl in *.
  destruct Hlog as [[-> _]|(_ & _ & [->|(e & -> & He)])]; [reflexivity..|].
  destruct e; [discriminate He|reflexivity..].
Qed.

(** The rate limit is respected: in the log of the loop a sleep follows
    every search request before the next one is sent. *)
Theorem news_for_rows_paced (search : string -> nat -> response search_body)
    (names : list string) (news_cache : gmap string news_result) :
  paced false (ui_log (news_for_rows names brave_api_key search news_cache)) = true.
Proof.
  revert news_cache. induction names as [|name rest IH]; intros cache;
    [reflexivity|].
  rewrite news_for_rows_cons. simpl.
  destruct (cache !! name) as [r|] eqn:E.
  - rewrite (news_for_row_cached _ _ _ _ E). simpl. apply IH.
  - rewrite (news_for_row_fresh _ _ _ E), paced_fetch. apply IH.
Qed.

(** A request is sent only for a row whose coin name was not in the cache,
    with the count 3. *)
Theorem news_for_rows_requests (search : string -> nat -> response search_body)
    (names : list string) (news_cache : gmap string news_result)
    (q : string) (count : nat) :
  In (NewsEvent (SearchRequest q count))
     (ui_log (news_for_rows names brave_api_key search news_cache)) ->
  count = 3%nat /\
  exists name, In name names /\ news_cache !! name = None /\
               q = name +:+ " coin news".
Proof.
  revert news_cache. induction names as [|name rest IH]; intros cache; [intros []|].
  rewrite news_for_rows_cons. simpl. intros [Hin|Hin]%in_app_or.
  - destruct (cache !! name) as [r|] eqn:E.
    + by rewrite (news_for_row_cached _ _ _ _ E) in Hin.
    + rewrite (news_for_row_fresh _ _ _ E) in Hin. unfold fetch_and_cache in Hin.
      pose proof (get_brave_search_news_log search name brave_api_key 3) as Hlog.
      destruct (get_brave_search_news name brave_api_key 3 search) as [w r].
      simpl in *. apply in_app_or in Hin as [Hin|[Hin|[]]]; [|discriminate Hin].
      apply in_map_iff in Hin as (e & [= ->] & Hin).
      assert (SearchRequest q count = SearchRequest (name +:+ " coin news") 3)
        as [= -> ->].
      { destruct Hlog as [[-> _]|(_ & _ & [->|(e & -> & He)])].
        - destruct Hin.
        - by destruct Hin as [<-|[]].
        - destruct Hin as [<-|[->|[]]]; [reflexivity|simpl in He; discriminate He]. }
      split; [reflexivity|]. exists name. by split; [left|].
  - destruct (news_for_row_cache search name cache) as [Hsub _].
    apply IH in Hin as (Hc & name' & Hn & Hnone & Hq).
    split; [exact Hc|]. exists name'. split; [by right|]. split; [|exact Hq].
    destruct (cache !! name') as [r|] eqn:E; [|reflexivity].
    eapply lookup_weaken in E; [|exact Hsub]. simpl in *. congruence.
Qed.

End Panel.

Lemma news_for_rows_requests_witness :
  3%nat = 3%nat /\
  exists name, In name ["Bitcoin"%string] /\
               (∅ : gmap string news_result) !! name = None /\
               "Bitcoin coin news"%string = name +:+ " coin news".
Proof.
  apply (news_for_rows_requests "key" (search_const body_web_only)
           ["Bitcoin"%string] ∅ "Bitcoin coin news" 3).
  vm_compute. by left.
Defined.

(** * The captions of the API keys *)

Section Captions.

Lemma string_length_list (s : string) :
  String.length s = length (list_ascii_of_string s).
Proof. induction s as [|c s IH]; simpl; [reflexivity|by rewrite IH]. Qed.

Lemma string_of_list_ascii_app (l1 l2 : list ascii) :
  string_of_list_ascii (l1 ++ l2) =
  string_of_list_ascii l1 +:+ string_of_list_ascii l2.
Proof. induction l1 as [|c l1 IH]; simpl; [reflexivity|by rewrite IH]. Qed.

(** The caption never shows a key in full: what follows the dots is four
    characters, either four stars or the last four characters of a key that
    is longer than that. *)
Theorem masked_key_hides (key : string) :
  String.length (masked_key key) = 4%nat /\
  (masked_key key = "****"%string \/
   exists hidden, hidden <> ""%string /\ key = hidden +:+ masked_key key).
Proof.
  unfold masked_key. destruct (Nat.ltb_spec 4 (String.length key)) as [Hlen|Hlen];
    [|split; [reflexivity|by left]].
  rewrite string_length_list in Hlen. unfold last4.
  set (l := list_ascii_of_string key) in *.
  set (n := (length l - 4)%nat). split.
  - rewrite string_length_list, list_ascii_of_string_of_list_ascii, length_skipn.
    unfold n. lia.
  - right. exists (string_of_list_ascii (firstn n l)). split.
    + intros E. apply (f_equal String.length) in E.
      rewrite string_length_list, list_ascii_of_string_of_list_ascii,
        length_firstn in E. simpl in E. unfold n in E. lia.
    + rewrite <- string_of_list_ascii_app, firstn_skipn. unfold l.
      by rewrite string_of_list_ascii_of_string.
Qed.

End Captions.
